(** * Base classes of the differentially private synthesizers

    A shallow embedding of [synthesis/synthesizers/_base.py]: the validation
    helpers of [BaseDPSynthesizer], its [score] utility and the fixed-data
    check of [FixedSamplingMixin].

    Python values are modelled by inductive types, raised exceptions by an
    error monad, pandas frames by labelled columns of cells.  [score] is
    written once, over the arithmetic it runs on, which has two instances:
    IEEE 754 binary64, where SciPy's distance is a primitive given from
    outside, and exact real arithmetic (extended with the infinity and the
    not-a-number value of NumPy), where the distance is defined. *)

From Stdlib Require Import ZArith List String Ascii Bool Lia Permutation Sorted.
From Stdlib Require Import DecimalString.
From Stdlib Require DecimalZ.
From Stdlib Require OrderedTypeEx.
From Stdlib Require Import Floats.SpecFloat.
From Stdlib Require Import Reals Lra.
Import ListNotations.

Local Open Scope string_scope.
Local Open Scope Z_scope.

(** ** Exceptions and the error monad *)

Module Py.

(** The exception classes the file raises or lets through, each with its
    message. *)
Inductive exn : Type :=
| TypeError (msg : string)
| ValueError (msg : string)
| OverflowError (msg : string)
| ZeroDivisionError (msg : string)
| KeyError (msg : string)
| IndexError (msg : string)
| AttributeError (msg : string)
| AssertionError (msg : string)
| NotFittedError (msg : string).

Inductive result (A : Type) : Type :=
| Return (a : A)
| Raise (e : exn).

Arguments Return {A} a.
Arguments Raise {A} e.

Definition bind {A B : Type} (m : result A) (k : A -> result B) : result B :=
  match m with
  | Return a => k a
  | Raise e => Raise e
  end.

Definition raises {A : Type} (m : result A) : bool :=
  match m with
  | Return _ => false
  | Raise _ => true
  end.

End Py.

Import Py.

Declare Scope py_scope.
Delimit Scope py_scope with py.
Notation "x <- m ;; k" := (bind m (fun x => k))
  (at level 61, m at next level, right associativity) : py_scope.
Notation "m ;;; k" := (bind m (fun _ => k))
  (at level 61, right associativity) : py_scope.
Local Open Scope py_scope.

(** ** Python objects that can be passed as [epsilon] *)

(** A Python [float] is an IEEE 754 binary64 value. *)
Definition pyfloat : Type := spec_float.

Inductive pyobj : Type :=
| PyNone
| PyBool (b : bool)
| PyInt (z : Z)
| PyFloat (f : pyfloat)
| PyComplex (re im : pyfloat)
| PyStr (s : string).

(** [isinstance(x, numbers.Real)]: [int] (and its subclass [bool]) and
    [float] are registered as real numbers; [complex] is a number but not a
    real one. *)
Definition isinstance_Real (x : pyobj) : bool :=
  match x with
  | PyBool _ | PyInt _ | PyFloat _ => true
  | PyNone | PyComplex _ _ | PyStr _ => false
  end.

Definition int_of_bool (b : bool) : Z := if b then 1 else 0.

(** [x < 0] and [x == 0] on a real number. *)
Definition lt_zero (x : pyobj) : bool :=
  match x with
  | PyBool b => int_of_bool b <? 0
  | PyInt z => z <? 0
  | PyFloat f => SFltb f (S754_zero false)
  | _ => false
  end.

Definition eq_zero (x : pyobj) : bool :=
  match x with
  | PyBool b => int_of_bool b =? 0
  | PyInt z => z =? 0
  | PyFloat f => SFeqb f (S754_zero false)
  | _ => false
  end.

(** Integers at or above [2^1024 - 2^970] in magnitude round (to nearest,
    ties to even) beyond the largest binary64 value. *)
Definition float_overflow_bound : Z := 2 ^ 1024 - 2 ^ 970.

Definition float_of_int (z : Z) : pyfloat := binary_normalize 53 1024 z 0 false.

(** [float(x)] on a real number, which is what [_check_epsilon] converts:
    an [int] too large for a binary64 value raises [OverflowError].  (The
    parsing of a string is not modelled; no string reaches the call.) *)
Definition py_float (x : pyobj) : result pyfloat :=
  match x with
  | PyBool b => Return (float_of_int (int_of_bool b))
  | PyInt z =>
      if float_overflow_bound <=? Z.abs z
      then Raise (OverflowError "int too large to convert to float")
      else Return (float_of_int z)
  | PyFloat f => Return f
  | PyNone | PyComplex _ _ | PyStr _ =>
      Raise (TypeError "float() argument must be a string or a real number")
  end.

(** ** Tabular data *)

(** A column label or a [Series] name: pandas labels are any hashable value;
    strings and integers (the positional labels of an array) are the ones
    met in practice.  Python never equates an [int] with a [str]. *)
Inductive label : Type :=
| LInt (z : Z)
| LStr (s : string).

(** A value held in a frame: an integer, a string, or the missing value
    [NA] (a [NaN]). *)
Inductive cell : Type :=
| NA
| Int (z : Z)
| Str (s : string).

Definition label_eq_dec (a b : label) : {a = b} + {a <> b}.
Proof. decide equality; [apply Z.eq_dec | apply string_dec]. Defined.

Definition cell_eq_dec (a b : cell) : {a = b} + {a <> b}.
Proof. decide equality; [apply Z.eq_dec | apply string_dec]. Defined.

Definition str_of_Z (z : Z) : string := NilZero.string_of_int (Z.to_int z).

(** [str(x)] on a label and on a cell. *)
Definition label_str (l : label) : string :=
  match l with
  | LInt z => str_of_Z z
  | LStr s => s
  end.

Definition cell_str (v : cell) : string :=
  match v with
  | NA => "nan"
  | Int z => str_of_Z z
  | Str s => s
  end.

Definition isna (v : cell) : bool :=
  match v with
  | NA => true
  | _ => false
  end.

Definition is_str_label (l : label) : bool :=
  match l with
  | LStr _ => true
  | LInt _ => false
  end.

Definition is_str_cell (v : cell) : bool :=
  match v with
  | Str _ => true
  | _ => false
  end.

(** [c in labels] on a list or an index of labels. *)
Definition label_in (c : label) (ls : list label) : bool :=
  if in_dec label_eq_dec c ls then true else false.

(** Equality of the sets of the elements of two lists. *)
Definition set_eqb {A : Type} (eq_dec : forall a b : A, {a = b} + {a <> b})
    (xs ys : list A) : bool :=
  forallb (fun x => if in_dec eq_dec x ys then true else false) xs &&
  forallb (fun y => if in_dec eq_dec y xs then true else false) ys.

Record Series : Type := mkSeries {
  name : option label;
  values : list cell
}.

(** A frame: the length of its row index and its labelled columns, in
    order.  Labels may repeat. *)
Record DataFrame : Type := mkFrame {
  frame_len : nat;
  frame_cols : list (label * list cell)
}.

Definition columns (df : DataFrame) : list label := map fst (frame_cols df).

Fixpoint lookup {A K : Type} (eq_dec : forall a b : K, {a = b} + {a <> b})
    (k : K) (l : list (K * A)) : option A :=
  match l with
  | [] => None
  | (k', v) :: l' => if eq_dec k k' then Some v else lookup eq_dec k l'
  end.

(** What [df[c]] selects: a [Series] when one column bears the label, a
    frame of the columns that bear it when several do. *)
Inductive selection : Type :=
| OneColumn (s : Series)
| SubFrame (df : DataFrame).

Definition has_label (c : label) (cv : label * list cell) : bool :=
  if label_eq_dec (fst cv) c then true else false.

(** [df[c]], or a [KeyError] that names [c] when no column bears the
    label. *)
Definition getitem (df : DataFrame) (c : label) : result selection :=
  match filter (has_label c) (frame_cols df) with
  | [] => Raise (KeyError (label_str c))
  | [(_, vs)] => Return (OneColumn (mkSeries (Some c) vs))
  | cols => Return (SubFrame (mkFrame (frame_len df) cols))
  end.

(** The values of a selection, as [np.asarray] flattens them. *)
Definition selection_values (sel : selection) : list cell :=
  match sel with
  | OneColumn s => values s
  | SubFrame df => List.concat (map snd (frame_cols df))
  end.

(** What [fit] and [_check_input_data] accept: a frame or a two-dimensional
    array, given with its shape. *)
Inductive tabular : Type :=
| TFrame (df : DataFrame)
| TArray (nrows ncols : nat) (rows : list (list cell)).

(** [pd.DataFrame(data)]: a frame is kept; the columns of an array are
    labelled by their positions. *)
Definition pd_DataFrame (data : tabular) : DataFrame :=
  match data with
  | TFrame df => df
  | TArray n k rows =>
      mkFrame n (map (fun j => (LInt (Z.of_nat j), map (fun r => nth j r NA) rows))
                     (seq 0 k))
  end.

(** The cast of one value by [astype(str)]: pandas keeps a missing value
    missing. *)
Definition astype_str_cell (v : cell) : cell :=
  match v with
  | NA => NA
  | _ => Str (cell_str v)
  end.

(** [df.astype(str)]. *)
Definition astype_str (df : DataFrame) : DataFrame :=
  mkFrame (frame_len df)
          (map (fun cv => (fst cv, map astype_str_cell (snd cv))) (frame_cols df)).

(** [df.columns.astype(str)]. *)
Definition columns_astype_str (df : DataFrame) : list label :=
  map (fun l => LStr (label_str l)) (columns df).

(** [df.columns = new]: relabels the columns by position. *)
Definition set_columns (df : DataFrame) (new : list label) : DataFrame :=
  mkFrame (frame_len df) (combine new (map snd (frame_cols df))).

(** [df.shape[0]]. *)
Definition shape0 (df : DataFrame) : nat := frame_len df.

(** ** The synthesizer instance *)

(** The fitted model a subclass stores in [model_].  This file only reads
    [model_.index.get_level_values(c)]; the index is a [MultiIndex], given
    by its levels in order, each with its name and the values it takes. *)
Record fitted_model : Type := mkModel {
  index : list (label * list cell)
}.

(** Instance attributes; the ones set after construction are absent
    ([None]) until they are assigned. *)
Record synthesizer : Type := mkSynth {
  type_name : string;
  epsilon : pyobj;
  verbose : bool;
  columns_ : option (list label);
  n_records_fit_ : option nat;
  model_ : option fitted_model
}.

Definition getattr {A : Type} (self : synthesizer) (attr : string)
    (field : option A) : result A :=
  match field with
  | Some a => Return a
  | None =>
      Raise (AttributeError ("'" ++ type_name self ++ "' object has no attribute '"
                             ++ attr ++ "'"))
  end.

Definition hasattr {A : Type} (field : option A) : bool :=
  match field with
  | Some _ => true
  | None => false
  end.

(** [names.index(level)]: the position of the first level of that name. *)
Fixpoint names_index (level : label) (names : list label) : option nat :=
  match names with
  | [] => None
  | n :: names' =>
      if label_eq_dec level n then Some O
      else option_map S (names_index level names')
  end.

Definition too_many_levels (nlevels : Z) (what : string) : string :=
  "Too many levels: Index has only " ++ str_of_Z nlevels ++ " levels, " ++ what.

(** [MultiIndex._get_level_number]: a level is looked up by name first; a
    name borne by several levels is refused unless it is an integer; an
    integer that names no level is read as a position, counted from the end
    when negative. *)
Definition _get_level_number (names : list label) (level : label) : result nat :=
  if (1 <? count_occ label_eq_dec names level)%nat && is_str_label level then
    Raise (ValueError ("The name " ++ label_str level
                       ++ " occurs multiple times, use a level number"))
  else
    match names_index level names with
    | Some i => Return i
    | None =>
        match level with
        | LStr s => Raise (KeyError ("Level " ++ s ++ " not found"))
        | LInt z =>
            let nlevels := Z.of_nat (List.length names) in
            if z <? 0 then
              if z + nlevels <? 0 then
                Raise (IndexError
                         (too_many_levels nlevels
                            (str_of_Z z ++ " is not a valid level number")))
              else Return (Z.to_nat (z + nlevels))
            else if nlevels <=? z then
              Raise (IndexError (too_many_levels nlevels ("not " ++ str_of_Z (z + 1))))
            else Return (Z.to_nat z)
        end
    end.

(** [index.get_level_values(c)]. *)
Definition get_level_values (m : fitted_model) (c : label) : result (list cell) :=
  i <- _get_level_number (map fst (index m)) c ;;
  Return (nth i (map snd (index m)) []).

(** ** Validation helpers of [BaseDPSynthesizer] *)

Definition _check_epsilon (self : synthesizer) : result unit :=
  if negb (isinstance_Real (epsilon self)) then
    Raise (TypeError "Epsilon must be numeric")
  else if lt_zero (epsilon self) then
    Raise (ValueError "Epsilon must be non-negative")
  else if eq_zero (epsilon self) then
    Raise (ValueError "Epsilon cannot be zero")
  else
    py_float (epsilon self) ;;; Return tt.

Definition _check_init_args (self : synthesizer) : result unit :=
  _check_epsilon self.

(** Returns the instance with [columns_] and [n_records_fit_] assigned, and
    the normalised frame. *)
Definition _check_input_data (self : synthesizer) (data : tabular)
    : synthesizer * DataFrame :=
  let data := astype_str (pd_DataFrame data) in
  let data := set_columns data (columns_astype_str data) in
  let self := mkSynth (type_name self) (epsilon self) (verbose self)
                      (Some (columns data)) (n_records_fit_ self) (model_ self) in
  let self := mkSynth (type_name self) (epsilon self) (verbose self)
                      (columns_ self) (Some (shape0 data)) (model_ self) in
  (self, data).

Definition not_fitted_msg (name : string) : string :=
  "This " ++ name ++ " instance is not fitted yet. Call 'fit' with " ++
  "appropriate arguments before using this synthesizer.".

Definition _check_is_fitted (self : synthesizer) : result unit :=
  if negb (hasattr (model_ self)) then
    Raise (NotFittedError (not_fitted_msg (type_name self)))
  else Return tt.

(** ** Value counts and their alignment *)

(** A [Series] of counts indexed by category, as [value_counts] returns. *)
Definition counts : Type := list (cell * nat).

Fixpoint count_into (v : cell) (acc : counts) : counts :=
  match acc with
  | [] => [(v, 1%nat)]
  | (k, n) :: acc' =>
      if cell_eq_dec v k then (k, S n) :: acc' else (k, n) :: count_into v acc'
  end.

(** The number of occurrences of each value, in order of first occurrence. *)
Definition tally (vs : list cell) : counts :=
  fold_left (fun acc v => count_into v acc) vs [].

Fixpoint insert_by_count (e : cell * nat) (l : counts) : counts :=
  match l with
  | [] => [e]
  | e' :: l' =>
      if (snd e' <=? snd e)%nat then e :: e' :: l' else e' :: insert_by_count e l'
  end.

(** Most frequent category first. *)
Definition sort_counts (l : counts) : counts := fold_right insert_by_count [] l.

(** [s.value_counts(dropna=...)]: with [dropna=False] the missing value is
    counted as a category of its own. *)
Definition value_counts (dropna : bool) (s : Series) : counts :=
  sort_counts
    (tally (if dropna then filter (fun v => negb (isna v)) (values s) else values s)).

(** [x.value_counts(dropna=...)] on what [df[c]] selected.  On a frame
    pandas counts rows, grouping them by the columns of the frame, which
    fails when the columns share one label. *)
Definition value_counts_of (dropna : bool) (sel : selection) : result counts :=
  match sel with
  | OneColumn s => Return (value_counts dropna s)
  | SubFrame df =>
      Raise (ValueError ("Grouper for '" ++ label_str (hd (LStr "") (columns df))
                         ++ "' not 1-dimensional"))
  end.

(** The order in which pandas sorts an index: numbers, then strings, then
    the missing value. *)
Definition cell_leb (a b : cell) : bool :=
  match a, b with
  | Int x, Int y => x <=? y
  | Int _, _ => true
  | Str _, Int _ => false
  | Str s, Str t => String.leb s t
  | Str _, NA => true
  | NA, NA => true
  | NA, _ => false
  end.

Fixpoint insert_cell (a : cell) (l : list cell) : list cell :=
  match l with
  | [] => [a]
  | b :: l' => if cell_leb a b then a :: b :: l' else b :: insert_cell a l'
  end.

Definition sort_cells (l : list cell) : list cell := fold_right insert_cell [] l.

(** The index of an outer join: an index equal to the other one is kept
    as it is, and so is an index joined with an empty one; otherwise the
    union of the two is sorted. *)
Definition union_index (i1 i2 : list cell) : list cell :=
  if list_eq_dec cell_eq_dec i1 i2 then i1
  else
    match i1, i2 with
    | [], _ => i2
    | _, [] => i1
    | _, _ => sort_cells (nodup cell_eq_dec (i1 ++ i2))
    end.

Definition count_or (fill : nat) (s : counts) (k : cell) : nat :=
  match lookup cell_eq_dec k s with
  | Some n => n
  | None => fill
  end.

Definition reindex (s : counts) (idx : list cell) (fill : nat) : counts :=
  map (fun k => (k, count_or fill s k)) idx.

(** [s1.align(s2, join='outer', axis=0, fill_value=fill)]. *)
Definition align_outer (s1 s2 : counts) (fill : nat) : counts * counts :=
  let idx := union_index (map fst s1) (map fst s2) in
  (reindex s1 idx fill, reindex s2 idx fill).

(** ** The Jensen-Shannon distance over exact arithmetic *)

Local Open Scope R_scope.

(** NumPy floats, taken with exact real arithmetic on the finite values. *)
Inductive npfloat : Type :=
| Fin (r : R)
| PInf
| NaN.

Definition npadd (a b : npfloat) : npfloat :=
  match a, b with
  | NaN, _ | _, NaN => NaN
  | PInf, _ | _, PInf => PInf
  | Fin x, Fin y => Fin (x + y)
  end.

(** Division by a positive finite number. *)
Definition npdiv (a : npfloat) (d : R) : npfloat :=
  match a with
  | Fin x => Fin (x / d)
  | PInf => PInf
  | NaN => NaN
  end.

Definition npsqrt (a : npfloat) : npfloat :=
  match a with
  | Fin x => if Rlt_dec x 0 then NaN else Fin (sqrt x)
  | PInf => PInf
  | NaN => NaN
  end.

(** [np.sum] of a vector. *)
Definition npsum (l : list npfloat) : npfloat := fold_right npadd (Fin 0) l.

(** [scipy.special.rel_entr]: [x log(x / y)] when both are positive, [0]
    when [x = 0] and [y >= 0], infinity otherwise. *)
Definition rel_entr (x y : R) : npfloat :=
  if Rlt_dec 0 x then
    if Rlt_dec 0 y then Fin (x * ln (x / y)) else PInf
  else if Req_dec_T x 0 then
    if Rle_dec 0 y then Fin 0 else PInf
  else PInf.

Definition normalize (p : list nat) : list R :=
  map (fun c => INR c / INR (list_sum p)) p.

Definition map2 {A B C : Type} (f : A -> B -> C) (l1 : list A) (l2 : list B)
    : list C :=
  map (fun ab => f (fst ab) (snd ab)) (combine l1 l2).

(** [scipy.spatial.distance.jensenshannon] on two vectors of counts of the
    same length: both are normalised to sum to one, [m] is their pointwise
    mean, and the distance is the square root of half the sum of the
    relative entropies of each to [m].  Normalising a non-empty vector whose
    sum is zero divides zero by zero, which makes every entry, and then the
    distance, not-a-number. *)
Definition jensenshannon (p q : list nat) : npfloat :=
  if negb (List.length p =? 0)%nat && ((list_sum p =? 0)%nat || (list_sum q =? 0)%nat)
  then NaN
  else
    let p' := normalize p in
    let q' := normalize q in
    let m := map2 (fun x y => (x + y) / 2) p' q' in
    let left := map2 rel_entr p' m in
    let right := map2 rel_entr q' m in
    let js := npadd (npsum left) (npsum right) in
    npsqrt (npdiv js 2).

Local Close Scope R_scope.

(** ** The arithmetic of [score] *)

(** What [score] computes with: the numbers, the [0] that [sum] starts
    from, the addition of two numbers, the division of a number by a count,
    and [jensenshannon] on two aligned vectors of counts. *)
Record arithmetic : Type := mkArithmetic {
  num : Type;
  zero : num;
  add : num -> num -> num;
  div_count : num -> nat -> num;
  distance : list nat -> list nat -> num
}.

(** IEEE 754 binary64, as Python and NumPy compute: every operation rounds
    to nearest, ties to even.  SciPy's [jensenshannon] is a parameter. *)
Definition binary64 (jensenshannon64 : list nat -> list nat -> pyfloat)
    : arithmetic :=
  mkArithmetic pyfloat (S754_zero false) (SFadd 53 1024)
               (fun total n => SFdiv 53 1024 total (float_of_int (Z.of_nat n)))
               jensenshannon64.

(** Exact arithmetic. *)
Definition exact : arithmetic :=
  mkArithmetic npfloat (Fin 0%R) npadd (fun total n => npdiv total (INR n))
               jensenshannon.

(** ** [BaseDPSynthesizer.score] *)

(** A Python [dict] keyed by column label: insertion-ordered, an
    assignment to a key already present replaces its value in place. *)
Definition dict (V : Type) : Type := list (label * V).

Fixpoint dict_set {V : Type} (d : dict V) (k : label) (v : V) : dict V :=
  match d with
  | [] => [(k, v)]
  | (k', v') :: d' =>
      if label_eq_dec k k' then (k', v) :: d' else (k', v') :: dict_set d' k v
  end.

Definition dict_get {V : Type} (d : dict V) (k : label) : option V :=
  lookup label_eq_dec k d.

Definition dict_values {V : Type} (d : dict V) : list V := map snd d.

(** [sum(xs)]: left to right, starting from [0]. *)
Definition py_sum (ar : arithmetic) (xs : list (num ar)) : num ar :=
  fold_left (add ar) xs (zero ar).

(** [total / n] for the length [n] of a list. *)
Definition div_len (ar : arithmetic) (total : num ar) (n : nat) : result (num ar) :=
  match n with
  | O => Raise (ZeroDivisionError "division by zero")
  | S _ => Return (div_count ar total n)
  end.

Inductive score_result (V : Type) : Type :=
| Average (average_column_distance : V)
| AverageAndColumns (average_column_distance : V) (column_distances : dict V).

Arguments Average {V} average_column_distance.
Arguments AverageAndColumns {V} average_column_distance column_distances.

(** The loop over [original_data.columns], threading [column_distances]. *)
Fixpoint score_loop (ar : arithmetic) (original_data synthetic_data : DataFrame)
    (cols : list label) (column_distances : dict (num ar))
    : result (dict (num ar)) :=
  match cols with
  | [] => Return column_distances
  | c :: cols' =>
      orig <- getitem original_data c ;;
      counts_original <- value_counts_of false orig ;;
      synth <- getitem synthetic_data c ;;
      counts_synthetic <- value_counts_of false synth ;;
      let aligned := align_outer counts_original counts_synthetic 0 in
      let js_distance :=
        distance ar (map snd (fst aligned)) (map snd (snd aligned)) in
      score_loop ar original_data synthetic_data cols'
                 (dict_set column_distances c js_distance)
  end.

Definition score (ar : arithmetic) (original_data synthetic_data : DataFrame)
    (score_dict : bool) : result (score_result (num ar)) :=
  column_distances <-
    score_loop ar original_data synthetic_data (columns original_data) [] ;;
  average_column_distance <-
    div_len ar (py_sum ar (dict_values column_distances))
            (List.length (columns original_data)) ;;
  if score_dict
  then Return (AverageAndColumns average_column_distance column_distances)
  else Return (Average average_column_distance).

(** ** [FixedSamplingMixin._check_fixed_data] *)

(** What a caller may pass as [fixed_data]: a [Series], a [DataFrame], or a
    value of any other type (an array, [None], a number, ...). *)
Inductive fixed_input : Type :=
| FSeries (s : Series)
| FFrame (df : DataFrame)
| FArray (nrows ncols : nat) (rows : list (list cell))
| FObject (o : pyobj).

(** What [print] writes when [verbose] is set: the columns left to sample. *)
Inductive stdout_line : Type :=
| ColumnsSampled (sample_columns : list label).

(** [np.unique(xs)] sorts the values, and Python orders a string neither
    against a number nor against the missing value (a [float]): values that
    mix strings with either raise [TypeError] (its message names the two
    types in the order the sort met them, which is not modelled).  Otherwise
    the distinct values are returned; NumPy returns them sorted, and they
    are only used as a set. *)
Definition np_unique (xs : list cell) : result (list cell) :=
  if existsb is_str_cell xs && existsb (fun v => negb (is_str_cell v)) xs
  then Raise (TypeError "'<' not supported between instances of 'str' and 'float'")
  else Return (nodup cell_eq_dec xs).

(** [set(xs) == set(ys)] on two such arrays.  The missing value is a
    [NaN], which equals nothing, itself included: a set that holds it
    equals no set made from another array. *)
Definition py_set_eqb (xs ys : list cell) : bool :=
  negb (existsb isna xs) && negb (existsb isna ys) && set_eqb cell_eq_dec xs ys.

(** [name in labels] for the name of a [Series], which may be [None]. *)
Definition name_in (n : option label) (ls : list label) : bool :=
  match n with
  | Some c => label_in c ls
  | None => false
  end.

Definition category_msg (c : label) : string :=
  "conditioning variable has different categories for column: " ++ label_str c.

(** The loop of assertions over [fixed_data.columns]. *)
Fixpoint check_categories (self : synthesizer) (fixed_data : DataFrame)
    (cols : list label) : result unit :=
  match cols with
  | [] => Return tt
  | c :: cols' =>
      model <- getattr self "model_" (model_ self) ;;
      level <- get_level_values model c ;;
      categories <- np_unique level ;;
      col <- getitem fixed_data c ;;
      observed <- np_unique (selection_values col) ;;
      if py_set_eqb categories observed
      then check_categories self fixed_data cols'
      else Raise (AssertionError (category_msg c))
  end.

(** Returns what was printed. *)
Definition _check_fixed_data (self : synthesizer) (fixed_data : fixed_input)
    : result (list stdout_line) :=
  match fixed_data with
  | FSeries s =>
      cols <- getattr self "columns_" (columns_ self) ;;
      if negb (name_in (name s) cols)
      then Raise (ValueError "Columns in fixed data not seen in fit.")
      else Return []
  | FFrame df =>
      cols <- getattr self "columns_" (columns_ self) ;;
      if negb (forallb (fun c => label_in c cols) (columns df)) then
        Raise (ValueError "Columns in fixed data not seen in fit.")
      else if set_eqb label_eq_dec (columns df) cols then
        Raise (ValueError
                 "Fixed data already contains all the columns that were seen in fit.")
      else
        check_categories self df (columns df) ;;;
        if verbose self
        then Return [ColumnsSampled
                       (filter (fun c => negb (label_in c (columns df))) cols)]
        else Return []
  | FArray _ _ _ | FObject _ => Return []
  end.

(** ** Vocabulary of the properties *)

Definition with_epsilon (e : pyobj) : synthesizer :=
  mkSynth "PrivBayes" e true None None None.

(** [0 < x] on a real number. *)
Definition gt_zero (x : pyobj) : bool :=
  match x with
  | PyBool b => 0 <? int_of_bool b
  | PyInt z => 0 <? z
  | PyFloat f => SFltb (S754_zero false) f
  | _ => false
  end.

(** The real numbers [float] converts: every [float] and [bool], and the
    integers below the overflow bound. *)
Definition float_convertible (x : pyobj) : bool :=
  match x with
  | PyInt z => Z.abs z <? float_overflow_bound
  | _ => isinstance_Real x
  end.

Definition is_nan (x : pyobj) : bool :=
  match x with
  | PyFloat S754_nan => true
  | _ => false
  end.

(** A finite, strictly positive real number. *)
Definition finite_positive (x : pyobj) : bool :=
  match x with
  | PyBool b => b
  | PyInt z => 0 <? z
  | PyFloat (S754_finite false _ _) => true
  | _ => false
  end.

(** The column labels and the number of rows of an input dataset. *)
Definition dataset_labels (data : tabular) : list label :=
  match data with
  | TFrame df => columns df
  | TArray _ k _ => map (fun j => LInt (Z.of_nat j)) (seq 0 k)
  end.

Definition dataset_len (data : tabular) : nat :=
  match data with
  | TFrame df => frame_len df
  | TArray n _ _ => n
  end.

Definition same_set {A : Type} (xs ys : list A) : Prop := forall x, In x xs <-> In x ys.

Definition fitted_on (cols : list label) (m : fitted_model) : synthesizer :=
  mkSynth "PrivBayes" (PyInt 1) false (Some cols) (Some 10%nat) (Some m).

(** Values of one kind, which [np.unique] can sort: all of them strings, or
    none of them. *)
Definition sortable (xs : list cell) : bool :=
  forallb is_str_cell xs || forallb (fun v => negb (is_str_cell v)) xs.

Definition no_missing (xs : list cell) : bool := negb (existsb isna xs).

(** Column [c] of the fixed data matches the model: the index of the model
    has a level for [c], the values of the level and the values the fixed
    data hold under [c] are each of one kind, none of them is missing, and
    the distinct values are the same. *)
Definition categories_match (m : fitted_model) (df : DataFrame) (c : label) : Prop :=
  exists level col,
    get_level_values m c = Return level /\
    getitem df c = Return col /\
    sortable level = true /\ sortable (selection_values col) = true /\
    no_missing level = true /\ no_missing (selection_values col) = true /\
    same_set level (selection_values col).


(** The categories observed in either column, each once. *)
Definition observed_categories (original synthetic : list cell) : list cell :=
  nodup cell_eq_dec (original ++ synthetic)%list.

(** The number of occurrences in [vs] of each category of [categories]: [0]
    for a category that [vs] does not hold. *)
Definition count_vector (vs categories : list cell) : list nat :=
  map (count_occ cell_eq_dec vs) categories.

(** The Jensen-Shannon distance between the counts of two columns over the
    categories observed in either, in exact arithmetic. *)
Definition column_distance (original synthetic : list cell) : npfloat :=
  jensenshannon
    (count_vector original (observed_categories original synthetic))
    (count_vector synthetic (observed_categories original synthetic)).

(** What one turn of the loop of [score] computes from the two columns. *)
Definition loop_distance (ar : arithmetic) (orig synth : Series) : num ar :=
  let aligned := align_outer (value_counts false orig) (value_counts false synth) 0%nat in
  distance ar (map snd (fst aligned)) (map snd (snd aligned)).

Local Open Scope R_scope.

(** The distance between the counts [f] and [g] over a common index. *)
Definition jensenshannon_on (idx : list cell) (f g : cell -> nat) : npfloat :=
  let sf := list_sum (map f idx) in
  let sg := list_sum (map g idx) in
  if negb (List.length idx =? 0)%nat && ((sf =? 0)%nat || (sg =? 0)%nat)
  then NaN
  else
    let x i := INR (f i) / INR sf in
    let y i := INR (g i) / INR sg in
    npsqrt (npdiv (npadd (npsum (map (fun i => rel_entr (x i) ((x i + y i) / 2)) idx))
                         (npsum (map (fun i => rel_entr (y i) ((x i + y i) / 2)) idx)))
                  2).

Local Close Scope R_scope.

(** The values of column [c], for a column the frame has. *)
Definition column (df : DataFrame) (c : label) : list cell :=
  match lookup label_eq_dec c (frame_cols df) with
  | Some vs => vs
  | None => []
  end.

(** The arithmetic mean of a list of distances, in exact arithmetic. *)
Definition arithmetic_mean (ds : list npfloat) : npfloat :=
  npdiv (npsum ds) (INR (List.length ds)).

(** The mean of a list of numbers added from left to right. *)
Definition mean_in_order (ar : arithmetic) (ds : list (num ar)) : num ar :=
  div_count ar (py_sum ar ds) (List.length ds).

(** The distance of column [c] between two datasets in exact arithmetic,
    and the mapping from each column of the original dataset to its
    distance. *)
Definition distance_of (original synthetic : DataFrame) (c : label) : npfloat :=
  column_distance (column original c) (column synthetic c).

Definition distances_of (original synthetic : DataFrame) : dict npfloat :=
  map (fun c => (c, distance_of original synthetic c)) (columns original).

(** The categories two columns are aligned on: the index of the outer join
    of their value counts. *)
Definition aligned_categories (original synthetic : list cell) : list cell :=
  union_index (map fst (value_counts false (mkSeries None original)))
              (map fst (value_counts false (mkSeries None synthetic))).

(** The distance between the counts of two columns over the categories
    they are aligned on, and the distance of column [c] between two
    datasets. *)
Definition aligned_distance (ar : arithmetic) (original synthetic : list cell)
    : num ar :=
  distance ar (count_vector original (aligned_categories original synthetic))
           (count_vector synthetic (aligned_categories original synthetic)).

Definition distance_in (ar : arithmetic) (original synthetic : DataFrame)
    (c : label) : num ar :=
  aligned_distance ar (column original c) (column synthetic c).

(** The result made of the distances [d] of the columns [cols], taken in
    that order: their mean, with the mapping when it is asked for; without
    columns there is no mean. *)
Definition score_of (ar : arithmetic) (cols : list label) (d : label -> num ar)
    (score_dict : bool) : result (score_result (num ar)) :=
  match cols with
  | [] => Raise (ZeroDivisionError "division by zero")
  | _ :: _ =>
      let average := mean_in_order ar (map d cols) in
      if score_dict
      then Return (AverageAndColumns average (map (fun c => (c, d c)) cols))
      else Return (Average average)
  end.

(** Two results of [score] are the same: the same average and, when the
    per-column distances are returned, the same distance for each column
    (as Python compares dictionaries, whatever the order of insertion); or
    the same exception. *)
Definition same_scores {V : Type} (r1 r2 : result (score_result V)) : Prop :=
  match r1, r2 with
  | Return (Average a1), Return (Average a2) => a1 = a2
  | Return (AverageAndColumns a1 d1), Return (AverageAndColumns a2 d2) =>
      a1 = a2 /\ forall c, dict_get d1 c = dict_get d2 c
  | Raise e1, Raise e2 => e1 = e2
  | _, _ => False
  end.

(** The frame restricted to the columns whose label is in [cs]. *)
Definition restrict (df : DataFrame) (cs : list label) : DataFrame :=
  mkFrame (frame_len df) (filter (fun cv => label_in (fst cv) cs) (frame_cols df)).

Definition census_model : fitted_model :=
  mkModel [(LStr "age", [Str "31"; Str "40"; Str "31"]);
           (LStr "gender", [Str "f"; Str "m"; Str "m"]);
           (LStr "city", [Str "x"; Str "y"; Str "y"])].

Definition census_synth : synthesizer :=
  fitted_on [LStr "age"; LStr "gender"; LStr "city"] census_model.

Definition fixed_ok : DataFrame :=
  mkFrame 3 [(LStr "gender", [Str "m"; Str "f"; Str "f"]);
             (LStr "age", [Str "40"; Str "40"; Str "31"])].


Definition census_original : DataFrame :=
  mkFrame 3 [(LStr "age", [Str "31"; Str "40"; Str "31"]);
             (LStr "gender", [Str "f"; NA; Str "m"])].

Definition census_synthetic : DataFrame :=
  mkFrame 2 [(LStr "gender", [Str "m"; Str "m"]);
             (LStr "age", [Str "31"; Str "55"])].

(** A frame in which two columns bear the label [a]. *)
Definition twice_a : DataFrame :=
  mkFrame 1 [(LStr "a", [Str "x"]); (LStr "a", [Str "y"])].

Definition once_a : DataFrame := mkFrame 1 [(LStr "a", [Str "x"])].

(** Two surveys of four rows with the same three questions, listed in
    opposite orders.  In each question the answers of the two surveys that
    differ are [y] in the first and [z] in the second: all four of them in
    [q1], two in [q2], one in [q3]. *)
Definition survey_1 : DataFrame :=
  mkFrame 4 [(LStr "q1", [Str "y"; Str "y"; Str "y"; Str "y"]);
             (LStr "q2", [Str "x"; Str "x"; Str "y"; Str "y"]);
             (LStr "q3", [Str "x"; Str "x"; Str "x"; Str "y"])].

Definition survey_2 : DataFrame :=
  mkFrame 4 [(LStr "q3", [Str "x"; Str "x"; Str "x"; Str "z"]);
             (LStr "q2", [Str "x"; Str "x"; Str "z"; Str "z"]);
             (LStr "q1", [Str "z"; Str "z"; Str "z"; Str "z"])].

Definition vector_eqb (p q : list nat) : bool :=
  if list_eq_dec Nat.eq_dec p q then true else false.

(** The vectors [p] and [q] are [u] and [v], in this order or the other. *)
Definition either_order (p q u v : list nat) : bool :=
  (vector_eqb p u && vector_eqb q v) || (vector_eqb p v && vector_eqb q u).

(** The binary64 value of [log 2], and the values SciPy's [jensenshannon]
    returns on the aligned counts of the three questions, in either order
    of its arguments.  The answers the surveys share contribute [log 1 = 0]
    to the relative entropies; those that differ, [k] out of [n] in each
    survey, contribute their share times [log 2] on either side, and the
    distance is the square root of half the sum.  On other vectors the
    table has no value. *)
Definition log_2 : pyfloat := S754_finite false 6243314768165359 (-53).

Definition differing_share_distance (k n : Z) : pyfloat :=
  let share := SFdiv 53 1024 (float_of_int k) (float_of_int n) in
  let entropy := SFmul 53 1024 share log_2 in
  SFsqrt 53 1024 (SFdiv 53 1024 (SFadd 53 1024 entropy entropy) (float_of_int 2)).

Definition jensenshannon_table (p q : list nat) : pyfloat :=
  if either_order p q [4%nat; 0%nat] [0%nat; 4%nat]
  then S754_finite false 7498985273150791 (-53)
  else if either_order p q [2%nat; 2%nat; 0%nat] [2%nat; 0%nat; 2%nat]
  then S754_finite false 5302583338662979 (-53)
  else if either_order p q [3%nat; 1%nat; 0%nat] [3%nat; 0%nat; 1%nat]
  then S754_finite false 7498985273150791 (-54)
  else S754_nan.

Ltac in_list := simpl; intuition (discriminate || congruence || auto).

(** ** Construction, and further vocabulary *)

(** [BaseDPSynthesizer.__init__], as a subclass named [cls] runs it: the two
    arguments are stored, with their defaults [epsilon=1.0] and
    [verbose=True]; nothing is validated and no other attribute is set. *)
Definition __init__ (cls : string) (epsilon : option pyobj) (verbose : option bool)
    : synthesizer :=
  mkSynth cls
          (match epsilon with Some e => e | None => PyFloat (float_of_int 1) end)
          (match verbose with Some v => v | None => true end)
          None None None.

(** The instance with its [verbose] attribute set to [v]. *)
Definition set_verbose (self : synthesizer) (v : bool) : synthesizer :=
  mkSynth (type_name self) (epsilon self) v (columns_ self) (n_records_fit_ self)
          (model_ self).

(** A frame with every label and every value cast to a string. *)
Definition normalised (df : DataFrame) : DataFrame :=
  mkFrame (frame_len df)
          (map (fun cv => (LStr (label_str (fst cv)), map astype_str_cell (snd cv)))
               (frame_cols df)).

(** Two frames with the same labels, column by column, whose columns are
    related by [R]. *)
Definition columnwise (R : list cell -> list cell -> Prop) (df df' : DataFrame)
    : Prop :=
  Forall2 (fun c c' => fst c = fst c' /\ R (snd c) (snd c'))
          (frame_cols df) (frame_cols df').

(** Every value of the frame is a string. *)
Definition all_strings (df : DataFrame) : Prop :=
  forall c vs v, In (c, vs) (frame_cols df) -> In v vs -> is_str_cell v = true.




(** * Properties *)

(** ** Epsilon validation *)

Example check_epsilon_default :
  _check_epsilon (with_epsilon (PyFloat (float_of_int 1))) = Return tt.
Proof. reflexivity. Qed.

Example check_epsilon_str :
  _check_epsilon (with_epsilon (PyStr "1.0")) = Raise (TypeError "Epsilon must be numeric").
Proof. reflexivity. Qed.

Example check_epsilon_minus_zero :
  _check_epsilon (with_epsilon (PyFloat (S754_zero true)))
  = Raise (ValueError "Epsilon cannot be zero").
Proof. reflexivity. Qed.

(** Not-a-number is a real number that is neither negative nor zero. *)
Example check_epsilon_nan :
  _check_epsilon (with_epsilon (PyFloat S754_nan)) = Return tt.
Proof. reflexivity. Qed.

(** The bound of [float] is where rounding to binary64 overflows. *)
Example float_of_int_below_bound :
  float_of_int (float_overflow_bound - 1) = S754_finite false 9007199254740991 971.
Proof. vm_compute. reflexivity. Qed.

Example float_of_int_at_bound :
  float_of_int float_overflow_bound = S754_infinity false.
Proof. vm_compute. reflexivity. Qed.

Lemma eq_zero_not_lt_zero (x : pyobj) : eq_zero x = true -> lt_zero x = false.
Proof.
  destruct x as [ | b | z | f | re im | s]; simpl; try discriminate.
  - destruct b; simpl; intros; reflexivity.
  - intros H. apply Z.eqb_eq in H. subst z. reflexivity.
  - destruct f as [sg | sg | | sg m e]; try destruct sg; simpl;
      intros H; try discriminate H; reflexivity.
Qed.

Lemma gt_zero_tests (x : pyobj) :
  gt_zero x = true ->
  isinstance_Real x = true /\ lt_zero x = false /\ eq_zero x = false.
Proof.
  destruct x as [ | b | z | f | re im | s]; simpl; try discriminate.
  - destruct b; simpl; intros H; try discriminate H; auto.
  - intros H. apply Z.ltb_lt in H.
    repeat split; [apply Z.ltb_ge | apply Z.eqb_neq]; lia.
  - destruct f as [sg | sg | | sg m e]; try destruct sg; simpl;
      intros H; try discriminate H; auto.
Qed.

Lemma py_float_convertible (x : pyobj) :
  isinstance_Real x = true -> float_convertible x = true ->
  exists f, py_float x = Return f.
Proof.
  destruct x as [ | b | z | f | re im | s]; simpl; try discriminate; eauto.
  intros _ H. apply Z.ltb_lt in H.
  destruct (float_overflow_bound <=? Z.abs z) eqn:E; eauto.
  apply Z.leb_le in E. lia.
Qed.

(** C1, counterexample: the integer [2^1024] is a strictly positive real
    number, and validating it raises [OverflowError]. *)
Lemma check_epsilon_huge_int_raises :
  isinstance_Real (PyInt (2 ^ 1024)) = true /\
  gt_zero (PyInt (2 ^ 1024)) = true /\
  _check_epsilon (with_epsilon (PyInt (2 ^ 1024)))
  = Raise (OverflowError "int too large to convert to float").
Proof. split; [ | split ]; vm_compute; reflexivity. Qed.

(** C1 (amended): [_check_epsilon] raises [TypeError] when epsilon is not a
    real number, [ValueError] when it is negative, [ValueError] when it is
    zero; it raises nothing for a strictly positive real number that [float]
    converts (every positive [float], [True], every positive [int] below
    [2^1024 - 2^970]), and [OverflowError] for a larger [int]. *)
Theorem check_epsilon_cases (self : synthesizer) :
  (isinstance_Real (epsilon self) = false ->
   _check_epsilon self = Raise (TypeError "Epsilon must be numeric")) /\
  (isinstance_Real (epsilon self) = true -> lt_zero (epsilon self) = true ->
   _check_epsilon self = Raise (ValueError "Epsilon must be non-negative")) /\
  (isinstance_Real (epsilon self) = true -> eq_zero (epsilon self) = true ->
   _check_epsilon self = Raise (ValueError "Epsilon cannot be zero")) /\
  (gt_zero (epsilon self) = true -> float_convertible (epsilon self) = true ->
   _check_epsilon self = Return tt /\ _check_init_args self = Return tt) /\
  (gt_zero (epsilon self) = true -> float_convertible (epsilon self) = false ->
   _check_epsilon self = Raise (OverflowError "int too large to convert to float")).
Proof.
  unfold _check_init_args, _check_epsilon.
  split; [ | split; [ | split; [ | split ] ] ].
  - intros ->. reflexivity.
  - intros -> ->. reflexivity.
  - intros -> Hz. rewrite (eq_zero_not_lt_zero _ Hz), Hz. reflexivity.
  - intros Hpos Hconv.
    destruct (gt_zero_tests _ Hpos) as (Hreal & -> & ->). rewrite Hreal.
    destruct (py_float_convertible _ Hreal Hconv) as [f ->]. split; reflexivity.
  - intros Hpos Hconv.
    destruct (gt_zero_tests _ Hpos) as (-> & -> & ->). simpl.
    destruct (epsilon self) as [ | b | z | f | re im | s];
      simpl in *; try discriminate.
    apply Z.ltb_ge in Hconv.
    destruct (float_overflow_bound <=? Z.abs z) eqn:E; [reflexivity|].
    apply Z.leb_gt in E. lia.
Qed.

Lemma check_epsilon_cases_witness :
  _check_epsilon (with_epsilon (PyNone)) = Raise (TypeError "Epsilon must be numeric") /\
  _check_epsilon (with_epsilon (PyInt (-2)))
  = Raise (ValueError "Epsilon must be non-negative") /\
  _check_epsilon (with_epsilon (PyBool false))
  = Raise (ValueError "Epsilon cannot be zero") /\
  _check_epsilon (with_epsilon (PyInt 3)) = Return tt /\
  _check_epsilon (with_epsilon (PyInt (2 ^ 1030)))
  = Raise (OverflowError "int too large to convert to float").
Proof.
  split; [ | split; [ | split; [ | split ] ] ].
  - apply (check_epsilon_cases (with_epsilon PyNone)). reflexivity.
  - apply (check_epsilon_cases (with_epsilon (PyInt (-2)))); reflexivity.
  - apply (check_epsilon_cases (with_epsilon (PyBool false))); reflexivity.
  - apply (check_epsilon_cases (with_epsilon (PyInt 3))); reflexivity.
  - apply (check_epsilon_cases (with_epsilon (PyInt (2 ^ 1030)))); reflexivity.
Defined.

(** C8, counterexample: positive infinity passes validation, and it is not
    a finite number. *)
Lemma check_epsilon_accepts_infinity :
  _check_epsilon (with_epsilon (PyFloat (S754_infinity false))) = Return tt /\
  finite_positive (PyFloat (S754_infinity false)) = false.
Proof. split; reflexivity. Qed.

(** C8 (amended): an epsilon that passes validation is a real number that is
    neither negative nor zero, and unless it is not-a-number it is strictly
    positive; it need not be finite: positive infinity passes. *)
Theorem check_epsilon_passes_positive (self : synthesizer) :
  _check_epsilon self = Return tt ->
  isinstance_Real (epsilon self) = true /\
  lt_zero (epsilon self) = false /\
  eq_zero (epsilon self) = false /\
  (is_nan (epsilon self) = false -> gt_zero (epsilon self) = true).
Proof.
  unfold _check_epsilon.
  destruct (isinstance_Real (epsilon self)) eqn:Hreal; simpl; [ | discriminate ].
  destruct (lt_zero (epsilon self)) eqn:Hlt; [ discriminate | ].
  destruct (eq_zero (epsilon self)) eqn:Heq; [ discriminate | ].
  intros _. repeat split.
  destruct (epsilon self) as [ | b | z | f | re im | s];
    simpl in *; try discriminate.
  - destruct b; simpl in *; [ reflexivity | discriminate ].
  - intros _. apply Z.ltb_lt. apply Z.ltb_ge in Hlt. apply Z.eqb_neq in Heq. lia.
  - destruct f as [sg | sg | | sg m e]; try destruct sg; simpl in *;
      intros; try discriminate; reflexivity.
Qed.

Lemma check_epsilon_passes_positive_witness :
  isinstance_Real (PyFloat (S754_infinity false)) = true /\
  lt_zero (PyFloat (S754_infinity false)) = false /\
  eq_zero (PyFloat (S754_infinity false)) = false /\
  (is_nan (PyFloat (S754_infinity false)) = false ->
   gt_zero (PyFloat (S754_infinity false)) = true).
Proof.
  apply (check_epsilon_passes_positive (with_epsilon (PyFloat (S754_infinity false)))).
  reflexivity.
Defined.

(** ** Fitted-state check *)

(** C7: without a [model_] attribute, [_check_is_fitted] raises
    [NotFittedError] with a message that contains the name of the
    instance's type; with one, it raises nothing. *)
Theorem check_is_fitted_spec (self : synthesizer) :
  (model_ self = None ->
   exists pre post : string,
     _check_is_fitted self = Raise (NotFittedError (pre ++ type_name self ++ post))) /\
  (forall m, model_ self = Some m -> _check_is_fitted self = Return tt).
Proof.
  unfold _check_is_fitted. split.
  - intros ->. simpl. eexists "This ", _. reflexivity.
  - intros m ->. reflexivity.
Qed.

Lemma check_is_fitted_spec_witness :
  (exists pre post : string,
     _check_is_fitted (mkSynth "PrivBayes" (PyInt 1) true None None None)
     = Raise (NotFittedError (pre ++ "PrivBayes" ++ post))) /\
  _check_is_fitted (mkSynth "PrivBayes" (PyInt 1) true None None (Some (mkModel [])))
  = Return tt.
Proof.
  split.
  - apply (check_is_fitted_spec (mkSynth "PrivBayes" (PyInt 1) true None None None)).
    reflexivity.
  - apply (check_is_fitted_spec
             (mkSynth "PrivBayes" (PyInt 1) true None None (Some (mkModel [])))
             ) with (m := mkModel []).
    reflexivity.
Defined.

(** ** Input normalisation *)

Lemma columns_pd_DataFrame (data : tabular) :
  columns (pd_DataFrame data) = dataset_labels data.
Proof.
  destruct data as [df | n k rows]; [ reflexivity | ].
  unfold columns. simpl. rewrite map_map. reflexivity.
Qed.

Lemma columns_astype_str_frame (df : DataFrame) :
  columns (astype_str df) = columns df.
Proof. unfold columns, astype_str. simpl. rewrite map_map. reflexivity. Qed.

Lemma map_fst_combine {A B : Type} (l : list A) (l' : list B) :
  List.length l = List.length l' -> map fst (combine l l') = l.
Proof.
  revert l'. induction l as [ | a l IH]; intros [ | b l'] Hlen;
    simpl in *; try discriminate; [ reflexivity | ].
  f_equal. apply IH. congruence.
Qed.

Lemma columns_set_columns (df : DataFrame) (new : list label) :
  List.length new = List.length (columns df) ->
  columns (set_columns df new) = new.
Proof.
  intros Hlen. unfold columns, set_columns in *. simpl.
  apply map_fst_combine. now rewrite Hlen, !length_map.
Qed.

Example check_input_data_array :
  let out := _check_input_data (with_epsilon (PyInt 1))
               (TArray 2 2 [[Int 31; Str "f"]; [NA; Str "m"]]) in
  columns_ (fst out) = Some [LStr "0"; LStr "1"] /\
  n_records_fit_ (fst out) = Some 2%nat /\
  snd out = mkFrame 2 [(LStr "0", [Str "31"; NA]); (LStr "1", [Str "f"; Str "m"])].
Proof. repeat split. Qed.

(** C2: after [_check_input_data], [columns_] is the list of the dataset's
    column labels cast to strings, in their order, and [n_records_fit_] is
    the dataset's number of rows. *)
Theorem check_input_data_records (self : synthesizer) (data : tabular) :
  columns_ (fst (_check_input_data self data))
  = Some (map (fun l => LStr (label_str l)) (dataset_labels data)) /\
  n_records_fit_ (fst (_check_input_data self data)) = Some (dataset_len data).
Proof.
  unfold _check_input_data. simpl. split.
  - f_equal. rewrite columns_set_columns.
    + unfold columns_astype_str.
      now rewrite columns_astype_str_frame, columns_pd_DataFrame.
    + unfold columns_astype_str. now rewrite length_map.
  - f_equal. unfold shape0. simpl. now destruct data.
Qed.

(** ** Fixed-data validation *)

Section Membership.

Context {A : Type} (eq_dec : forall a b : A, {a = b} + {a <> b}).

Lemma mem_true (x : A) (ys : list A) :
  (if in_dec eq_dec x ys then true else false) = true <-> In x ys.
Proof. destruct (in_dec eq_dec x ys); split; auto; discriminate. Qed.

Lemma set_eqb_true (xs ys : list A) :
  set_eqb eq_dec xs ys = true <-> same_set xs ys.
Proof.
  unfold set_eqb, same_set. rewrite andb_true_iff, !forallb_forall. split.
  - intros [H1 H2] x. split; intros Hx.
    + now apply mem_true, H1.
    + now apply mem_true, H2.
  - intros H. split; intros x Hx; apply mem_true, H, Hx.
Qed.

Lemma set_eqb_false (xs ys : list A) :
  set_eqb eq_dec xs ys = false <-> ~ same_set xs ys.
Proof.
  rewrite <- set_eqb_true. destruct (set_eqb eq_dec xs ys); split; intros H.
  - discriminate.
  - now contradiction H.
  - discriminate.
  - reflexivity.
Qed.

Lemma same_set_nodup (xs ys : list A) :
  same_set (nodup eq_dec xs) (nodup eq_dec ys) <-> same_set xs ys.
Proof.
  unfold same_set. split; intros H x; specialize (H x);
    rewrite !nodup_In in *; exact H.
Qed.

End Membership.

Lemma label_in_true (c : label) (ls : list label) :
  label_in c ls = true <-> In c ls.
Proof. apply mem_true. Qed.

Lemma unseen_column_found (cols fixed : list label) :
  (exists c, In c fixed /\ ~ In c cols) ->
  forallb (fun c => label_in c cols) fixed = false.
Proof.
  intros (c & Hin & Hout).
  destruct (forallb (fun c => label_in c cols) fixed) eqn:E; [ | reflexivity ].
  rewrite forallb_forall in E. apply E, label_in_true in Hin. contradiction.
Qed.

(** C6, counterexample: fitted on the single column [a], a [Series] named
    [a] covers every fitted column, and its validation raises nothing. *)
Lemma check_fixed_data_series_covering_passes :
  same_set [LStr "a"] [LStr "a"] /\
  _check_fixed_data (fitted_on [LStr "a"] (mkModel [(LStr "a", [Str "x"])]))
                    (FSeries (mkSeries (Some (LStr "a")) [Str "x"]))
  = Return [].
Proof. split; [ intros x; reflexivity | reflexivity ]. Qed.

(** C6 (amended): on a fitted synthesizer, validating a [DataFrame] raises
    [ValueError] when it has a column that is not in [columns_] and
    [ValueError] when its set of columns is that of [columns_]; validating a
    [Series] raises [ValueError] when its name is not in [columns_]. *)
Theorem check_fixed_data_value_errors (self : synthesizer) (cols : list label) :
  columns_ self = Some cols ->
  (forall df, (exists c, In c (columns df) /\ ~ In c cols) ->
     _check_fixed_data self (FFrame df)
     = Raise (ValueError "Columns in fixed data not seen in fit.")) /\
  (forall df, same_set (columns df) cols ->
     _check_fixed_data self (FFrame df)
     = Raise (ValueError
                "Fixed data already contains all the columns that were seen in fit.")) /\
  (forall s, (forall c, name s = Some c -> ~ In c cols) ->
     _check_fixed_data self (FSeries s)
     = Raise (ValueError "Columns in fixed data not seen in fit.")).
Proof.
  intros Hcols. unfold _check_fixed_data. rewrite Hcols. simpl.
  split; [ | split ].
  - intros df Hex. now rewrite (unseen_column_found _ _ Hex).
  - intros df Hsame.
    assert (Hall : forallb (fun c => label_in c cols) (columns df) = true).
    { apply forallb_forall. intros c Hc. now apply label_in_true, Hsame. }
    rewrite Hall. simpl.
    now rewrite (proj2 (set_eqb_true label_eq_dec _ _) Hsame).
  - intros s Hname. unfold name_in. destruct (name s) as [c | ]; [ | reflexivity ].
    destruct (label_in c cols) eqn:E; [ | reflexivity ].
    apply label_in_true in E. now elim (Hname c eq_refl).
Qed.

Lemma check_fixed_data_value_errors_witness :
  _check_fixed_data (fitted_on [LStr "age"; LStr "gender"] (mkModel []))
                    (FFrame (mkFrame 1 [(LStr "height", [Str "180"])]))
  = Raise (ValueError "Columns in fixed data not seen in fit.") /\
  _check_fixed_data (fitted_on [LStr "age"; LStr "gender"] (mkModel []))
                    (FFrame (mkFrame 1 [(LStr "gender", [Str "f"]); (LStr "age", [Str "31"])]))
  = Raise (ValueError
             "Fixed data already contains all the columns that were seen in fit.") /\
  _check_fixed_data (fitted_on [LStr "age"; LStr "gender"] (mkModel []))
                    (FSeries (mkSeries None [Str "31"]))
  = Raise (ValueError "Columns in fixed data not seen in fit.").
Proof.
  pose proof (check_fixed_data_value_errors
                (fitted_on [LStr "age"; LStr "gender"] (mkModel []))
                [LStr "age"; LStr "gender"] eq_refl) as (H1 & H2 & H3).
  split; [ | split ].
  - apply H1. exists (LStr "height"). split; [ left; reflexivity | ].
    intros [H | [H | []]]; discriminate H.
  - apply H2. intros x. simpl. tauto.
  - apply H3. intros c H. discriminate H.
Defined.

(** [np.unique] and the comparison of the sets. *)
Lemma existsb_negb {A : Type} (P : A -> bool) (xs : list A) :
  existsb (fun v => negb (P v)) xs = negb (forallb P xs).
Proof.
  induction xs as [ | x xs IH]; simpl; [ reflexivity | ].
  rewrite IH. now destruct (P x), (forallb P xs).
Qed.

Lemma existsb_forallb_negb {A : Type} (P : A -> bool) (xs : list A) :
  existsb P xs = negb (forallb (fun v => negb (P v)) xs).
Proof.
  induction xs as [ | x xs IH]; simpl; [ reflexivity | ].
  rewrite IH. now destruct (P x), (forallb (fun v => negb (P v)) xs).
Qed.

Lemma np_unique_sortable (xs : list cell) :
  sortable xs = true -> np_unique xs = Return (nodup cell_eq_dec xs).
Proof.
  unfold sortable, np_unique. rewrite existsb_negb, existsb_forallb_negb.
  now destruct (forallb is_str_cell xs),
               (forallb (fun v => negb (is_str_cell v)) xs).
Qed.


Lemma existsb_same_set {A : Type} (P : A -> bool) (xs ys : list A) :
  same_set xs ys -> existsb P xs = existsb P ys.
Proof.
  intros Hsame.
  destruct (existsb P xs) eqn:E, (existsb P ys) eqn:E'; try reflexivity.
  - apply existsb_exists in E. destruct E as (x & Hx & Px).
    assert (H : existsb P ys = true).
    { apply existsb_exists. exists x. split; [ now apply Hsame | exact Px ]. }
    congruence.
  - apply existsb_exists in E'. destruct E' as (x & Hx & Px).
    assert (H : existsb P xs = true).
    { apply existsb_exists. exists x. split; [ now apply Hsame | exact Px ]. }
    congruence.
Qed.

Lemma no_missing_nodup (xs : list cell) :
  no_missing (nodup cell_eq_dec xs) = no_missing xs.
Proof.
  unfold no_missing. f_equal. apply existsb_same_set.
  intros x. apply nodup_In.
Qed.

(** The comparison of the distinct values of two arrays. *)
Lemma py_set_eqb_unique (xs ys : list cell) :
  py_set_eqb (nodup cell_eq_dec xs) (nodup cell_eq_dec ys) = true <->
  no_missing xs = true /\ no_missing ys = true /\ same_set xs ys.
Proof.
  unfold py_set_eqb.
  fold (no_missing (nodup cell_eq_dec xs)). fold (no_missing (nodup cell_eq_dec ys)).
  rewrite !no_missing_nodup, !andb_true_iff, set_eqb_true, same_set_nodup.
  tauto.
Qed.

Section CheckCategories.

Variables (self : synthesizer) (m : fitted_model) (df : DataFrame).
Hypothesis Hmodel : model_ self = Some m.

(** One turn of the loop, on a column whose level and values can be
    compared. *)
Lemma check_categories_step (c : label) (cs : list label)
    (level : list cell) (col : selection) :
  get_level_values m c = Return level -> getitem df c = Return col ->
  sortable level = true -> sortable (selection_values col) = true ->
  check_categories self df (c :: cs)
  = if py_set_eqb (nodup cell_eq_dec level)
                  (nodup cell_eq_dec (selection_values col))
    then check_categories self df cs
    else Raise (AssertionError (category_msg c)).
Proof.
  intros Hl Hc Hsl Hsc. cbn [check_categories]. rewrite Hmodel. cbn [getattr bind].
  rewrite Hl. cbn [bind]. rewrite (np_unique_sortable _ Hsl). cbn [bind].
  rewrite Hc. cbn [bind]. rewrite (np_unique_sortable _ Hsc). reflexivity.
Qed.

Lemma check_categories_step_match (c : label) (cs : list label) :
  categories_match m df c ->
  check_categories self df (c :: cs) = check_categories self df cs.
Proof.
  intros (level & col & Hl & Hc & Hsl & Hsc & Hnl & Hnc & Hsame).
  rewrite (check_categories_step c cs level col Hl Hc Hsl Hsc).
  now rewrite (proj2 (py_set_eqb_unique _ _) (conj Hnl (conj Hnc Hsame))).
Qed.




End CheckCategories.

Lemma strict_subset_passes_value_checks (self : synthesizer) (cols : list label)
    (df : DataFrame) :
  columns_ self = Some cols ->
  incl (columns df) cols -> ~ same_set (columns df) cols ->
  _check_fixed_data self (FFrame df)
  = (check_categories self df (columns df) ;;;
     if verbose self
     then Return [ColumnsSampled
                    (filter (fun c => negb (label_in c (columns df))) cols)]
     else Return []).
Proof.
  intros Hcols Hincl Hstrict. unfold _check_fixed_data. rewrite Hcols. simpl.
  assert (Hall : forallb (fun c => label_in c cols) (columns df) = true).
  { apply forallb_forall. intros c Hc. now apply label_in_true, Hincl. }
  rewrite Hall. simpl.
  now rewrite (proj2 (set_eqb_false label_eq_dec _ _) Hstrict).
Qed.




Example check_fixed_data_verbose_prints :
  _check_fixed_data
    (mkSynth "PrivBayes" (PyInt 1) true
             (Some [LStr "age"; LStr "gender"; LStr "city"]) (Some 3%nat)
             (Some census_model))
    (FFrame fixed_ok)
  = Return [ColumnsSampled [LStr "city"]].
Proof. reflexivity. Qed.

(** C10: [_check_fixed_data] dispatches on the type of its argument.  A
    value that is neither a [Series] nor a [DataFrame] is not checked at
    all, whatever the state of the instance.  For a [Series] only its name
    is checked against [columns_]: a [Series] whose name is a fitted column
    passes, whatever its values and the model are, also when that column is
    the whole fitted column set; a [Series] with another name, or none,
    raises [ValueError]. *)
Theorem check_fixed_data_dispatch (self : synthesizer) :
  (forall o, _check_fixed_data self (FObject o) = Return []) /\
  (forall n k rows, _check_fixed_data self (FArray n k rows) = Return []) /\
  (forall cols s c, columns_ self = Some cols -> name s = Some c -> In c cols ->
     _check_fixed_data self (FSeries s) = Return []) /\
  (forall cols s, columns_ self = Some cols ->
     (forall c, name s = Some c -> ~ In c cols) ->
     _check_fixed_data self (FSeries s)
     = Raise (ValueError "Columns in fixed data not seen in fit.")) /\
  (forall s c, columns_ self = Some [c] -> name s = Some c ->
     same_set [c] [c] /\ _check_fixed_data self (FSeries s) = Return []).
Proof.
  split; [ | split; [ | split; [ | split ] ] ].
  - reflexivity.
  - reflexivity.
  - intros cols s c Hcols Hname Hin. unfold _check_fixed_data.
    rewrite Hcols, Hname. simpl.
    now rewrite (proj2 (label_in_true c cols) Hin).
  - intros cols s Hcols Hname. unfold _check_fixed_data. rewrite Hcols. simpl.
    unfold name_in. destruct (name s) as [c | ]; [ | reflexivity ].
    destruct (label_in c cols) eqn:E; [ | reflexivity ].
    apply label_in_true in E. now elim (Hname c eq_refl).
  - intros s c Hcols Hname. split; [ intros x; reflexivity | ].
    unfold _check_fixed_data. rewrite Hcols, Hname. simpl.
    rewrite (proj2 (label_in_true c [c])); [ reflexivity | now left ].
Qed.

Lemma check_fixed_data_dispatch_witness :
  _check_fixed_data (with_epsilon (PyInt 1)) (FObject PyNone) = Return [] /\
  _check_fixed_data census_synth
                    (FSeries (mkSeries (Some (LStr "age")) [Str "unseen"]))
  = Return [] /\
  _check_fixed_data (fitted_on [LStr "age"] (mkModel []))
                    (FSeries (mkSeries (Some (LStr "age")) [Str "31"]))
  = Return [].
Proof.
  split; [ | split ].
  - apply (check_fixed_data_dispatch (with_epsilon (PyInt 1))).
  - apply (proj1 (proj2 (proj2 (check_fixed_data_dispatch census_synth)))
             [LStr "age"; LStr "gender"; LStr "city"] _ (LStr "age")).
    + reflexivity.
    + reflexivity.
    + simpl. auto.
  - apply (proj2 (proj2 (proj2 (proj2 (check_fixed_data_dispatch
                                         (fitted_on [LStr "age"] (mkModel []))))))
             (mkSeries (Some (LStr "age")) [Str "31"]) (LStr "age"));
      reflexivity.
Defined.

(** ** Value counts *)

Local Open Scope nat_scope.

Section Counting.

Lemma count_or_count_into (v k : cell) (acc : counts) :
  count_or 0 (count_into v acc) k
  = (if cell_eq_dec v k then 1 else 0) + count_or 0 acc k.
Proof.
  unfold count_or. induction acc as [ | [k' n] acc IH]; simpl.
  - destruct (cell_eq_dec k v), (cell_eq_dec v k); simpl; congruence.
  - destruct (cell_eq_dec v k') as [-> | Hvk']; simpl.
    + destruct (cell_eq_dec k k') as [Hkk' | Hkk'];
        destruct (cell_eq_dec k' k); simpl; congruence.
    + destruct (cell_eq_dec k k') as [-> | Hkk']; [ | exact IH ].
      destruct (cell_eq_dec v k'); [ contradiction | reflexivity ].
Qed.

Lemma keys_count_into (v k : cell) (acc : counts) :
  In k (map fst (count_into v acc)) <-> k = v \/ In k (map fst acc).
Proof.
  induction acc as [ | [k' n] acc IH]; simpl.
  - intuition.
  - destruct (cell_eq_dec v k') as [-> | Hvk']; simpl; [ intuition | ].
    rewrite IH. intuition.
Qed.

Lemma NoDup_count_into (v : cell) (acc : counts) :
  NoDup (map fst acc) -> NoDup (map fst (count_into v acc)).
Proof.
  induction acc as [ | [k' n] acc IH]; simpl; intros Hnd.
  - repeat constructor. intros [].
  - inversion Hnd as [ | ? ? Hout Hnd']; subst.
    destruct (cell_eq_dec v k') as [-> | Hvk']; simpl.
    + now constructor.
    + constructor; [ | now apply IH ].
      rewrite keys_count_into. intros [-> | Hin]; contradiction.
Qed.

Lemma tally_from (vs : list cell) (acc : counts) :
  (forall k, count_or 0 (fold_left (fun a v => count_into v a) vs acc) k
             = count_occ cell_eq_dec vs k + count_or 0 acc k) /\
  (forall k, In k (map fst (fold_left (fun a v => count_into v a) vs acc))
             <-> In k vs \/ In k (map fst acc)) /\
  (NoDup (map fst acc) ->
   NoDup (map fst (fold_left (fun a v => count_into v a) vs acc))).
Proof.
  revert acc. induction vs as [ | v vs IH]; intros acc; simpl.
  - repeat split; intuition.
  - destruct (IH (count_into v acc)) as (Hcount & Hkeys & Hnd).
    split; [ | split ].
    + intros k. rewrite Hcount, count_or_count_into.
      destruct (cell_eq_dec v k); lia.
    + intros k. rewrite Hkeys, keys_count_into. intuition.
    + intros H. now apply Hnd, NoDup_count_into.
Qed.

Lemma insert_by_count_perm (e : cell * nat) (l : counts) :
  Permutation (insert_by_count e l) (e :: l).
Proof.
  induction l as [ | e' l IH]; simpl; [ reflexivity | ].
  destruct (snd e' <=? snd e); [ reflexivity | ].
  rewrite IH. apply perm_swap.
Qed.

Lemma sort_counts_perm (l : counts) : Permutation (sort_counts l) l.
Proof.
  induction l as [ | e l IH]; simpl; [ reflexivity | ].
  rewrite insert_by_count_perm. now constructor.
Qed.

Lemma lookup_perm (k : cell) (l l' : counts) :
  Permutation l l' -> NoDup (map fst l) ->
  lookup cell_eq_dec k l = lookup cell_eq_dec k l'.
Proof.
  induction 1 as [ | [k1 n1] l l' Hperm IH | [k1 n1] [k2 n2] l
                   | l l' l'' H1 IH1 H2 IH2]; simpl; intros Hnd.
  - reflexivity.
  - inversion Hnd; subst. destruct (cell_eq_dec k k1); auto.
  - inversion Hnd as [ | ? ? Hout _]; subst. simpl in Hout.
    destruct (cell_eq_dec k k1), (cell_eq_dec k k2); try reflexivity.
    subst. elim Hout. now left.
  - rewrite IH1 by assumption. apply IH2.
    eapply Permutation_NoDup; [ | exact Hnd ].
    now apply Permutation_map.
Qed.

(** What [value_counts(dropna=False)] holds: one entry for each distinct
    value of the column, the missing value included, with its number of
    occurrences. *)
Lemma value_counts_spec (s : Series) :
  NoDup (map fst (value_counts false s)) /\
  (forall k, In k (map fst (value_counts false s)) <-> In k (values s)) /\
  (forall k, count_or 0 (value_counts false s) k
             = count_occ cell_eq_dec (values s) k).
Proof.
  unfold value_counts, tally.
  destruct (tally_from (values s) []) as (Hcount & Hkeys & Hnd).
  set (t := fold_left (fun a v => count_into v a) (values s) []) in *.
  pose proof (sort_counts_perm t) as Hperm.
  assert (Hndt : NoDup (map fst t)) by (apply Hnd; constructor).
  split; [ | split ].
  - eapply Permutation_NoDup; [ | exact Hndt ].
    symmetry. now apply Permutation_map.
  - intros k. split; intros H.
    + assert (Ht : In k (map fst t)).
      { eapply Permutation_in; [ | exact H ]. now apply Permutation_map. }
      apply Hkeys in Ht. destruct Ht as [Ht | []]. exact Ht.
    + assert (Ht : In k (map fst t)) by (apply Hkeys; now left).
      eapply Permutation_in; [ | exact Ht ].
      symmetry. now apply Permutation_map.
  - intros k. rewrite <- (Nat.add_0_r (count_occ _ _ _)).
    change 0 with (count_or 0 [] k) at 2. rewrite <- Hcount.
    unfold count_or. now rewrite <- (lookup_perm k t _ (Permutation_sym Hperm) Hndt).
Qed.

End Counting.

Example value_counts_keeps_missing :
  value_counts false (mkSeries None [Str "a"; NA; Str "b"; NA; Str "b"; NA])
  = [(NA, 3); (Str "b", 2); (Str "a", 1)].
Proof. reflexivity. Qed.

Example value_counts_dropna :
  value_counts true (mkSeries None [Str "a"; NA; Str "b"; NA; Str "b"; NA])
  = [(Str "b", 2); (Str "a", 1)].
Proof. reflexivity. Qed.

Example align_outer_fills_zero :
  align_outer [(Str "b", 2); (Str "a", 1)] [(Str "c", 4); (Str "a", 3)] 0
  = ([(Str "a", 1); (Str "b", 2); (Str "c", 0)],
     [(Str "a", 3); (Str "b", 0); (Str "c", 4)]).
Proof. reflexivity. Qed.

(** ** The Jensen-Shannon distance of aligned counts *)

Local Open Scope R_scope.

Lemma npadd_comm (a b : npfloat) : npadd a b = npadd b a.
Proof. destruct a, b; simpl; try reflexivity. f_equal. lra. Qed.

Lemma npadd_assoc (a b c : npfloat) : npadd a (npadd b c) = npadd (npadd a b) c.
Proof. destruct a, b, c; simpl; try reflexivity. f_equal. lra. Qed.

Lemma npadd_0_l (a : npfloat) : npadd (Fin 0) a = a.
Proof. destruct a; simpl; try reflexivity. f_equal. lra. Qed.

Lemma npsum_perm (l l' : list npfloat) : Permutation l l' -> npsum l = npsum l'.
Proof.
  induction 1 as [ | x l l' _ IH | x y l | l l' l'' _ IH1 _ IH2]; simpl.
  - reflexivity.
  - now rewrite IH.
  - now rewrite !npadd_assoc, (npadd_comm y x).
  - now rewrite IH1.
Qed.

Lemma npsum_zeros {A : Type} (l : list A) : npsum (map (fun _ => Fin 0) l) = Fin 0.
Proof.
  induction l as [ | a l IH]; simpl; [ reflexivity | ].
  rewrite IH. simpl. f_equal. lra.
Qed.

(** [sum] adds from the left and [np.sum] is taken from the right: with
    exact arithmetic they agree. *)
Lemma py_sum_npsum (l : list npfloat) : py_sum exact l = npsum l.
Proof.
  unfold py_sum, npsum. apply fold_symmetric.
  - intros x y z. apply npadd_assoc.
  - intros y. apply npadd_comm.
Qed.

Lemma list_sum_perm (l l' : list nat) :
  Permutation l l' -> list_sum l = list_sum l'.
Proof.
  induction 1 as [ | x l l' _ IH | x y l | l l' l'' _ IH1 _ IH2]; simpl; lia.
Qed.

Lemma map2_map {I A B C : Type} (h : A -> B -> C) (a : I -> A) (b : I -> B)
    (idx : list I) :
  map2 h (map a idx) (map b idx) = map (fun i => h (a i) (b i)) idx.
Proof.
  unfold map2. induction idx as [ | i idx IH]; simpl; [ reflexivity | ].
  now rewrite IH.
Qed.

Lemma rel_entr_self (x : R) : 0 <= x -> rel_entr x x = Fin 0.
Proof.
  intros Hx. unfold rel_entr.
  destruct (Rlt_dec 0 x) as [Hpos | Hnpos].
  - f_equal. replace (x / x) with 1 by (field; lra). rewrite ln_1. ring.
  - destruct (Req_dec_T x 0) as [-> | Hne]; [ | lra ].
    destruct (Rle_dec 0 0); [ reflexivity | lra ].
Qed.

Lemma rel_entr_pos (x y : R) :
  0 < x -> 0 < y -> rel_entr x y = Fin (x * ln (x / y)).
Proof.
  intros Hx Hy. unfold rel_entr.
  destruct (Rlt_dec 0 x); [ | lra ]. destruct (Rlt_dec 0 y); [ reflexivity | lra ].
Qed.

Lemma rel_entr_zero (y : R) : 0 <= y -> rel_entr 0 y = Fin 0.
Proof.
  intros Hy. unfold rel_entr.
  destruct (Rlt_dec 0 0); [ lra | ].
  destruct (Req_dec_T 0 0); [ | lra ]. destruct (Rle_dec 0 y); [ reflexivity | lra ].
Qed.

(** Two distributions with no category in common are at the largest
    distance, the square root of [ln 2]. *)
Example jensenshannon_disjoint :
  jensenshannon [1%nat; 0%nat] [0%nat; 1%nat] = Fin (sqrt (ln 2)).
Proof.
  unfold jensenshannon, normalize, map2.
  cbn [map combine fst snd list_sum List.length Nat.eqb negb andb orb Nat.add
       fold_right npsum].
  change (INR 1) with 1. change (INR 0) with 0.
  replace (1 / 1) with 1 by lra.
  replace (0 / 1) with 0 by lra.
  replace ((1 + 0) / 2) with (1 / 2) by lra.
  replace ((0 + 1) / 2) with (1 / 2) by lra.
  rewrite !rel_entr_pos, !rel_entr_zero by lra.
  replace (1 / (1 / 2)) with 2 by lra.
  cbn [npadd npdiv npsqrt].
  assert (Hln : 0 < ln 2) by (rewrite <- ln_1; apply ln_increasing; lra).
  destruct (Rlt_dec _ 0) as [Hneg | _]; [ lra | ].
  f_equal. f_equal. lra.
Qed.

(** Counts that are all zero cannot be normalised. *)
Example jensenshannon_zero_counts :
  jensenshannon [0%nat] [1%nat] = NaN /\ jensenshannon [] [] = Fin 0.
Proof.
  split; [ reflexivity | ].
  unfold jensenshannon. simpl.
  destruct (Rlt_dec ((0 + 0) / 2) 0) as [Hneg | _]; [ lra | ].
  f_equal. replace ((0 + 0) / 2) with 0 by lra. apply sqrt_0.
Qed.

Section IndexedDistance.

Lemma jensenshannon_index (idx : list cell) (f g : cell -> nat) :
  jensenshannon (map f idx) (map g idx) = jensenshannon_on idx f g.
Proof.
  unfold jensenshannon, jensenshannon_on, normalize.
  rewrite length_map, !map_map.
  destruct (negb (List.length idx =? 0)%nat
            && ((list_sum (map f idx) =? 0)%nat || (list_sum (map g idx) =? 0)%nat));
    [ reflexivity | ].
  cbv zeta.
  rewrite (map2_map (fun x y => (x + y) / 2)).
  now rewrite !(map2_map rel_entr).
Qed.

(** The distance does not depend on the order in which the index lists
    the categories. *)
Lemma jensenshannon_index_perm (idx idx' : list cell) (f g : cell -> nat) :
  Permutation idx idx' -> jensenshannon_on idx f g = jensenshannon_on idx' f g.
Proof.
  intros Hperm. unfold jensenshannon_on.
  rewrite (Permutation_length Hperm).
  rewrite (list_sum_perm _ _ (Permutation_map f Hperm)).
  rewrite (list_sum_perm _ _ (Permutation_map g Hperm)).
  destruct (negb (List.length idx' =? 0)%nat
            && ((list_sum (map f idx') =? 0)%nat || (list_sum (map g idx') =? 0)%nat));
    [ reflexivity | ].
  cbv zeta.
  rewrite (npsum_perm _ _ (Permutation_map _ Hperm)).
  now rewrite (npsum_perm (map _ idx) _ (Permutation_map _ Hperm)).
Qed.

Lemma jensenshannon_index_sym (idx : list cell) (f g : cell -> nat) :
  jensenshannon_on idx f g = jensenshannon_on idx g f.
Proof.
  unfold jensenshannon_on. rewrite (orb_comm (list_sum (map f idx) =? 0)%nat).
  destruct (negb (List.length idx =? 0)%nat
            && ((list_sum (map g idx) =? 0)%nat || (list_sum (map f idx) =? 0)%nat));
    [ reflexivity | ].
  cbv zeta. rewrite npadd_comm.
  do 3 f_equal; f_equal; apply map_ext; intros i; f_equal; f_equal; lra.
Qed.

Lemma jensenshannon_index_same (idx : list cell) (f : cell -> nat) :
  idx = [] \/ list_sum (map f idx) <> 0%nat ->
  jensenshannon_on idx f f = Fin 0.
Proof.
  intros Hsum. unfold jensenshannon_on.
  assert (Hcond : negb (List.length idx =? 0)%nat
                  && ((list_sum (map f idx) =? 0)%nat
                      || (list_sum (map f idx) =? 0)%nat) = false).
  { destruct Hsum as [-> | Hne]; [ reflexivity | ].
    apply Nat.eqb_neq in Hne. rewrite Hne. apply andb_false_r. }
  rewrite Hcond. cbv zeta.
  assert (Hterms : forall i, In i idx ->
            rel_entr (INR (f i) / INR (list_sum (map f idx)))
                     ((INR (f i) / INR (list_sum (map f idx))
                       + INR (f i) / INR (list_sum (map f idx))) / 2)
            = Fin 0).
  { intros i Hi.
    destruct Hsum as [-> | Hne]; [ destruct Hi | ].
    set (x := INR (f i) / INR (list_sum (map f idx))).
    replace ((x + x) / 2) with x by lra.
    apply rel_entr_self. unfold x.
    apply Rmult_le_pos; [ apply pos_INR | ].
    left. apply Rinv_0_lt_compat. apply lt_0_INR. lia. }
  rewrite (map_ext_in _ (fun _ => Fin 0) idx Hterms), npsum_zeros. simpl.
  destruct (Rlt_dec ((0 + 0) / 2) 0) as [Hneg | _]; [ lra | ].
  f_equal. replace ((0 + 0) / 2) with 0 by lra. apply sqrt_0.
Qed.

End IndexedDistance.

Local Close Scope R_scope.

(** ** The index of an outer join *)

Lemma string_leb_trans (s t u : string) :
  String.leb s t = true -> String.leb t u = true -> String.leb s u = true.
Proof.
  unfold String.leb.
  destruct (String.compare s t) eqn:E1; try discriminate;
    destruct (String.compare t u) eqn:E2; try discriminate; intros _ _.
  - apply OrderedTypeEx.String_as_OT.cmp_eq in E1. subst. now rewrite E2.
  - apply OrderedTypeEx.String_as_OT.cmp_eq in E1. subst. now rewrite E2.
  - apply OrderedTypeEx.String_as_OT.cmp_eq in E2. subst. now rewrite E1.
  - apply OrderedTypeEx.String_as_OT.cmp_lt in E1, E2.
    pose proof (OrderedTypeEx.String_as_OT.lt_trans _ _ _ E1 E2) as E.
    apply OrderedTypeEx.String_as_OT.cmp_lt in E.
    unfold OrderedTypeEx.String_as_OT.cmp in E. now rewrite E.
Qed.

Lemma cell_leb_total (a b : cell) : cell_leb a b = true \/ cell_leb b a = true.
Proof.
  destruct a as [ | x | s], b as [ | y | t]; simpl; auto.
  - destruct (Z.leb_spec x y); [ now left | right; apply Z.leb_le; lia ].
  - apply String.leb_total.
Qed.

Lemma cell_leb_trans (a b c : cell) :
  cell_leb a b = true -> cell_leb b c = true -> cell_leb a c = true.
Proof.
  destruct a as [ | x | s], b as [ | y | t], c as [ | z | u]; simpl;
    try discriminate; try reflexivity.
  - rewrite !Z.leb_le. lia.
  - apply string_leb_trans.
Qed.

Lemma cell_leb_antisym (a b : cell) :
  cell_leb a b = true -> cell_leb b a = true -> a = b.
Proof.
  destruct a as [ | x | s], b as [ | y | t]; simpl; try discriminate;
    try reflexivity.
  - rewrite !Z.leb_le. intros H1 H2. f_equal. lia.
  - intros H1 H2. f_equal. now apply String.leb_antisym.
Qed.

Lemma insert_cell_perm (a : cell) (l : list cell) :
  Permutation (insert_cell a l) (a :: l).
Proof.
  induction l as [ | b l IH]; simpl; [ reflexivity | ].
  destruct (cell_leb a b); [ reflexivity | ].
  rewrite IH. apply perm_swap.
Qed.

Lemma sort_cells_perm (l : list cell) : Permutation (sort_cells l) l.
Proof.
  induction l as [ | a l IH]; simpl; [ reflexivity | ].
  rewrite insert_cell_perm. now constructor.
Qed.

Lemma insert_cell_sorted (a : cell) (l : list cell) :
  StronglySorted (fun x y => cell_leb x y = true) l ->
  StronglySorted (fun x y => cell_leb x y = true) (insert_cell a l).
Proof.
  induction 1 as [ | b l Hs IH Hb]; simpl; [ repeat constructor | ].
  destruct (cell_leb a b) eqn:E.
  - constructor; [ now constructor | ].
    constructor; [ exact E | ].
    eapply Forall_impl; [ | exact Hb ].
    intros x Hx. simpl in Hx. now apply (cell_leb_trans a b x).
  - constructor; [ exact IH | ].
    assert (Hba : cell_leb b a = true).
    { destruct (cell_leb_total a b); congruence. }
    eapply Permutation_Forall; [ symmetry; apply insert_cell_perm | ].
    now constructor.
Qed.

Lemma sort_cells_sorted (l : list cell) :
  StronglySorted (fun x y => cell_leb x y = true) (sort_cells l).
Proof.
  induction l as [ | a l IH]; simpl; [ constructor | ].
  now apply insert_cell_sorted.
Qed.

(** A list has one sorted arrangement. *)
Lemma sorted_unique (l l' : list cell) :
  StronglySorted (fun x y => cell_leb x y = true) l ->
  StronglySorted (fun x y => cell_leb x y = true) l' ->
  Permutation l l' -> l = l'.
Proof.
  intros Hs. revert l'. induction Hs as [ | a l Hs IH Ha]; intros l' Hs' Hperm.
  - apply Permutation_nil in Hperm. now subst.
  - destruct Hs' as [ | b l' Hs' Hb].
    + symmetry in Hperm. apply Permutation_nil in Hperm. discriminate Hperm.
    + assert (Hab : a = b).
      { assert (Hin : In a (b :: l')).
        { eapply Permutation_in; [ exact Hperm | now left ]. }
        assert (Hin' : In b (a :: l)).
        { eapply Permutation_in; [ symmetry; exact Hperm | now left ]. }
        destruct Hin as [-> | Hin]; [ reflexivity | ].
        destruct Hin' as [-> | Hin']; [ reflexivity | ].
        rewrite Forall_forall in Ha, Hb.
        apply cell_leb_antisym; [ now apply Ha | now apply Hb ]. }
      subst b. f_equal. apply IH; [ exact Hs' | ].
      eapply Permutation_cons_inv. exact Hperm.
Qed.

Lemma sort_cells_perm_eq (l l' : list cell) :
  Permutation l l' -> sort_cells l = sort_cells l'.
Proof.
  intros Hperm. apply sorted_unique; try apply sort_cells_sorted.
  rewrite !sort_cells_perm. exact Hperm.
Qed.

(** The index of the join holds each category of either index once. *)
Lemma union_index_spec (i1 i2 : list cell) :
  NoDup i1 -> NoDup i2 ->
  NoDup (union_index i1 i2) /\
  (forall k, In k (union_index i1 i2) <-> In k i1 \/ In k i2).
Proof.
  intros H1 H2. unfold union_index.
  destruct (list_eq_dec cell_eq_dec i1 i2) as [-> | Hne].
  - split; [ assumption | intros k; tauto ].
  - destruct i1 as [ | a i1].
    + split; [ assumption | ]. intros k. simpl. tauto.
    + destruct i2 as [ | b i2].
      * split; [ assumption | ]. intros k. simpl. tauto.
      * set (u := nodup cell_eq_dec ((a :: i1) ++ b :: i2)).
        pose proof (sort_cells_perm u) as Hperm. split.
        -- eapply Permutation_NoDup; [ symmetry; exact Hperm | ].
           apply NoDup_nodup.
        -- intros k. transitivity (In k u).
           ++ split; apply Permutation_in; [ exact Hperm | now symmetry ].
           ++ unfold u. now rewrite nodup_In, in_app_iff.
Qed.

(** The index does not depend on which operand is aligned with which. *)
Lemma union_index_comm (i1 i2 : list cell) : union_index i1 i2 = union_index i2 i1.
Proof.
  unfold union_index.
  destruct (list_eq_dec cell_eq_dec i1 i2) as [-> | Hne].
  - destruct (list_eq_dec cell_eq_dec i2 i2); [ reflexivity | contradiction ].
  - destruct (list_eq_dec cell_eq_dec i2 i1) as [E | _]; [ now elim Hne | ].
    destruct i1 as [ | a i1], i2 as [ | b i2]; try reflexivity.
    apply sort_cells_perm_eq, NoDup_Permutation; try apply NoDup_nodup.
    intros k. rewrite !nodup_In, !in_app_iff. tauto.
Qed.

Example union_index_sorts :
  union_index [Str "b"; Str "a"] [Str "c"; NA; Int 7]
  = [Int 7; Str "a"; Str "b"; Str "c"; NA] /\
  union_index [Str "b"; Str "a"] [Str "b"; Str "a"] = [Str "b"; Str "a"] /\
  union_index [Str "b"; Str "a"] [] = [Str "b"; Str "a"].
Proof. repeat split. Qed.

(** ** The distance [score] computes for one column *)

(** The categories two columns are aligned on are the values observed in
    either, the missing value among them, each once. *)
Lemma aligned_categories_spec (vo vs : list cell) :
  NoDup (aligned_categories vo vs) /\
  (forall k, In k (aligned_categories vo vs) <-> In k vo \/ In k vs).
Proof.
  destruct (value_counts_spec (mkSeries None vo)) as (Hnd1 & Hk1 & _).
  destruct (value_counts_spec (mkSeries None vs)) as (Hnd2 & Hk2 & _).
  destruct (union_index_spec _ _ Hnd1 Hnd2) as (Hndu & Hku).
  split; [ exact Hndu | ].
  intros k. unfold aligned_categories. now rewrite Hku, Hk1, Hk2.
Qed.

Lemma aligned_categories_comm (vo vs : list cell) :
  aligned_categories vo vs = aligned_categories vs vo.
Proof. apply union_index_comm. Qed.

(** The aligned value counts are the counts of occurrences over the
    categories the columns are aligned on. *)
Lemma loop_distance_aligned (ar : arithmetic) (orig synth : Series) :
  loop_distance ar orig synth = aligned_distance ar (values orig) (values synth).
Proof.
  destruct (value_counts_spec orig) as (_ & _ & Hc1).
  destruct (value_counts_spec synth) as (_ & _ & Hc2).
  unfold loop_distance, aligned_distance, aligned_categories, count_vector,
    align_outer, reindex.
  cbv zeta. simpl fst. simpl snd. rewrite !map_map. simpl.
  now rewrite (map_ext _ _ Hc1), (map_ext _ _ Hc2).
Qed.

(** With a distance that is symmetric on vectors of one length, the
    distance of two columns is symmetric. *)
Lemma aligned_distance_sym (ar : arithmetic) (vo vs : list cell) :
  (forall p q, List.length p = List.length q -> distance ar p q = distance ar q p) ->
  aligned_distance ar vo vs = aligned_distance ar vs vo.
Proof.
  intros Hsym. unfold aligned_distance.
  rewrite (aligned_categories_comm vs vo).
  apply Hsym. unfold count_vector. now rewrite !length_map.
Qed.

Lemma observed_categories_spec (vo vs : list cell) :
  NoDup (observed_categories vo vs) /\
  (forall k, In k (observed_categories vo vs) <-> In k vo \/ In k vs).
Proof.
  unfold observed_categories. split; [ apply NoDup_nodup | ].
  intros k. now rewrite nodup_In, in_app_iff.
Qed.

(** In exact arithmetic the order of the categories does not matter. *)
Lemma aligned_distance_exact (vo vs : list cell) :
  aligned_distance exact vo vs = column_distance vo vs.
Proof.
  destruct (aligned_categories_spec vo vs) as (Hnda & Hka).
  destruct (observed_categories_spec vo vs) as (Hndo & Hko).
  unfold aligned_distance, column_distance, count_vector. cbn [distance exact].
  rewrite !jensenshannon_index.
  apply jensenshannon_index_perm, NoDup_Permutation; try assumption.
  intros k. now rewrite Hka, Hko.
Qed.

Lemma le_list_sum (x : nat) (l : list nat) : In x l -> (x <= list_sum l)%nat.
Proof.
  induction l as [ | y l IH]; simpl; [ intros [] | ].
  intros [-> | Hin]; [ lia | ]. specialize (IH Hin). lia.
Qed.

Lemma column_distance_same (vs : list cell) : column_distance vs vs = Fin 0%R.
Proof.
  unfold column_distance, count_vector. rewrite jensenshannon_index.
  apply jensenshannon_index_same.
  destruct vs as [ | v vs]; [ now left | right ].
  set (cats := observed_categories (v :: vs) (v :: vs)).
  assert (Hv : In v cats).
  { apply observed_categories_spec. left. now left. }
  assert (Hpos : (count_occ cell_eq_dec (v :: vs) v > 0)%nat).
  { apply count_occ_In. now left. }
  pose proof (le_list_sum _ _ (in_map (count_occ cell_eq_dec (v :: vs)) _ _ Hv)).
  lia.
Qed.

Lemma column_distance_sym (vo vs : list cell) :
  column_distance vo vs = column_distance vs vo.
Proof.
  unfold column_distance, count_vector. rewrite !jensenshannon_index.
  rewrite jensenshannon_index_sym.
  apply jensenshannon_index_perm.
  destruct (observed_categories_spec vo vs) as (Hnd1 & Hk1).
  destruct (observed_categories_spec vs vo) as (Hnd2 & Hk2).
  apply NoDup_Permutation; try assumption.
  intros k. rewrite Hk1, Hk2. tauto.
Qed.

(** ** Evaluating [score] *)

Lemma filter_has_label_absent (c : label) (l : list (label * list cell)) :
  ~ In c (map fst l) -> filter (has_label c) l = [].
Proof.
  induction l as [ | [k v] l IH]; simpl; intros Hout; [ reflexivity | ].
  unfold has_label at 1. simpl.
  destruct (label_eq_dec k c) as [-> | Hne]; [ elim Hout; now left | ].
  apply IH. intros Hin. apply Hout. now right.
Qed.

Lemma filter_has_label_once (c : label) (l : list (label * list cell)) :
  NoDup (map fst l) -> In c (map fst l) ->
  filter (has_label c) l
  = [(c, match lookup label_eq_dec c l with Some vs => vs | None => [] end)].
Proof.
  induction l as [ | [k v] l IH]; simpl; intros Hnd Hin; [ destruct Hin | ].
  inversion Hnd as [ | ? ? Hout Hnd']; subst.
  unfold has_label at 1. simpl.
  destruct (label_eq_dec k c) as [-> | Hne].
  - destruct (label_eq_dec c c); [ | contradiction ].
    now rewrite filter_has_label_absent.
  - destruct (label_eq_dec c k); [ congruence | ].
    apply IH; [ assumption | ]. destruct Hin; [ contradiction | assumption ].
Qed.

(** [df[c]] on a frame whose labels are pairwise distinct. *)
Lemma getitem_one (df : DataFrame) (c : label) :
  NoDup (columns df) -> In c (columns df) ->
  getitem df c = Return (OneColumn (mkSeries (Some c) (column df c))).
Proof.
  intros Hnd Hin. unfold getitem, column.
  now rewrite (filter_has_label_once c (frame_cols df) Hnd Hin).
Qed.

Lemma getitem_missing (df : DataFrame) (c : label) :
  ~ In c (columns df) -> getitem df c = Raise (KeyError (label_str c)).
Proof.
  intros Hout. unfold getitem.
  now rewrite (filter_has_label_absent c (frame_cols df) Hout).
Qed.

Lemma dict_set_fresh {V : Type} (d : dict V) (k : label) (v : V) :
  ~ In k (map fst d) -> dict_set d k v = (d ++ [(k, v)])%list.
Proof.
  induction d as [ | [k' v'] d IH]; simpl; intros Hout; [ reflexivity | ].
  destruct (label_eq_dec k k') as [-> | Hne]; [ elim Hout; now left | ].
  f_equal. apply IH. intros Hin. apply Hout. now right.
Qed.

Lemma dict_get_map {V : Type} (h : label -> V) (cols : list label) (c : label) :
  dict_get (map (fun c => (c, h c)) cols) c
  = if label_in c cols then Some (h c) else None.
Proof.
  unfold dict_get, label_in. induction cols as [ | k cols IH]; simpl; [ reflexivity | ].
  destruct (label_eq_dec c k) as [-> | Hne].
  - destruct (label_eq_dec k k); [ reflexivity | contradiction ].
  - rewrite IH. destruct (label_eq_dec k c); [ congruence | ].
    destruct (in_dec label_eq_dec c cols); reflexivity.
Qed.

Section ScoreLoop.

Variable ar : arithmetic.
Variables original synthetic : DataFrame.
Hypothesis Horiginal : NoDup (columns original).
Hypothesis Hsynthetic : NoDup (columns synthetic).

Lemma score_loop_step (c : label) (cols : list label) (d : dict (num ar)) :
  In c (columns original) -> In c (columns synthetic) ->
  score_loop ar original synthetic (c :: cols) d
  = score_loop ar original synthetic cols
      (dict_set d c (distance_in ar original synthetic c)).
Proof.
  intros Ho Hs. cbn [score_loop].
  rewrite (getitem_one original c Horiginal Ho). cbn [bind value_counts_of].
  rewrite (getitem_one synthetic c Hsynthetic Hs). cbn [bind value_counts_of].
  change (score_loop ar original synthetic cols
            (dict_set d c (loop_distance ar (mkSeries (Some c) (column original c))
                                         (mkSeries (Some c) (column synthetic c))))
          = score_loop ar original synthetic cols
              (dict_set d c (distance_in ar original synthetic c))).
  now rewrite loop_distance_aligned.
Qed.

Lemma score_loop_eval (cols : list label) (d : dict (num ar)) :
  NoDup cols ->
  incl cols (columns original) -> incl cols (columns synthetic) ->
  (forall c, In c cols -> ~ In c (map fst d)) ->
  score_loop ar original synthetic cols d
  = Return (d ++ map (fun c => (c, distance_in ar original synthetic c)) cols)%list.
Proof.
  revert d. induction cols as [ | c cols IH]; intros d Hnd Ho Hs Hfresh.
  - simpl. now rewrite app_nil_r.
  - inversion Hnd as [ | ? ? Hout Hnd']; subst.
    rewrite score_loop_step by (apply Ho || apply Hs; now left).
    rewrite dict_set_fresh by (apply Hfresh; now left).
    rewrite IH; try assumption.
    + now rewrite <- app_assoc.
    + intros x Hx. apply Ho. now right.
    + intros x Hx. apply Hs. now right.
    + intros x Hx. rewrite map_app, in_app_iff. simpl.
      intros [Hin | [-> | []]]; [ | contradiction ].
      apply (Hfresh x); [ now right | exact Hin ].
Qed.

(** [score] on two frames with pairwise distinct labels, the second of
    which has the columns of the first. *)
Lemma score_eval_in (score_dict : bool) :
  incl (columns original) (columns synthetic) ->
  score ar original synthetic score_dict
  = score_of ar (columns original) (distance_in ar original synthetic) score_dict.
Proof.
  intros Hincl. unfold score.
  rewrite score_loop_eval; auto using incl_refl. cbn [app bind].
  unfold dict_values. rewrite map_map. cbn [snd].
  destruct (columns original) as [ | c cols]; [ reflexivity | ].
  unfold score_of, mean_in_order. rewrite length_map.
  cbn [List.length div_len bind]. now destruct score_dict.
Qed.

End ScoreLoop.

Lemma score_no_columns (ar : arithmetic) (original synthetic : DataFrame)
    (score_dict : bool) :
  columns original = [] ->
  score ar original synthetic score_dict
  = Raise (ZeroDivisionError "division by zero").
Proof. intros E. unfold score. rewrite E. reflexivity. Qed.

Lemma score_of_ext (ar : arithmetic) (cols : list label) (d d' : label -> num ar)
    (score_dict : bool) :
  (forall c, d c = d' c) ->
  score_of ar cols d score_dict = score_of ar cols d' score_dict.
Proof.
  intros Hd. unfold score_of.
  rewrite (map_ext d d' Hd).
  now rewrite (map_ext (fun c => (c, d c)) (fun c => (c, d' c)))
    by (intros c; now rewrite Hd).
Qed.

(** In exact arithmetic the mean does not depend on the order of the sum,
    nor the distance of a column on the order of its categories. *)
Lemma mean_in_order_exact (ds : list npfloat) :
  mean_in_order exact ds = arithmetic_mean ds.
Proof.
  unfold mean_in_order, arithmetic_mean. cbn [div_count exact].
  now rewrite py_sum_npsum.
Qed.

Lemma distance_in_exact (original synthetic : DataFrame) (c : label) :
  distance_in exact original synthetic c = distance_of original synthetic c.
Proof. apply aligned_distance_exact. Qed.

Lemma score_eval (original synthetic : DataFrame) (score_dict : bool) :
  NoDup (columns original) -> NoDup (columns synthetic) ->
  incl (columns original) (columns synthetic) ->
  columns original <> [] ->
  score exact original synthetic score_dict
  = Return
      (let average :=
         arithmetic_mean
           (map (distance_of original synthetic) (columns original)) in
       if score_dict
       then AverageAndColumns average (distances_of original synthetic)
       else Average average).
Proof.
  intros Hnd Hnd' Hincl Hne.
  rewrite (score_eval_in exact original synthetic Hnd Hnd' score_dict Hincl).
  rewrite (score_of_ext exact _ _ _ score_dict (distance_in_exact original synthetic)).
  unfold score_of. rewrite mean_in_order_exact.
  destruct (columns original) as [ | c cols] eqn:E; [ contradiction | ].
  unfold distances_of. rewrite E. now destruct score_dict.
Qed.

(** ** Properties of [score] *)

Lemma arithmetic_mean_zeros {A : Type} (l : list A) :
  arithmetic_mean (map (fun _ => Fin 0%R) l) = Fin 0%R.
Proof.
  unfold arithmetic_mean. rewrite npsum_zeros. simpl. f_equal.
  unfold Rdiv. apply Rmult_0_l.
Qed.

(** An original dataset without rows against a synthetic one with rows:
    the distance is not-a-number, and so is the average. *)
Example score_no_rows_nan :
  score exact (mkFrame 0 [(LStr "a", [])]) (mkFrame 1 [(LStr "a", [Str "x"])]) false
  = Return (Average NaN).
Proof. reflexivity. Qed.

Example score_missing_column :
  score exact census_original (mkFrame 1 [(LStr "age", [Str "31"])]) false
  = Raise (KeyError "gender").
Proof. reflexivity. Qed.

(** C3, counterexample: in a dataset where two columns bear one label,
    [A[c]] is a frame, not a column, and its [value_counts] raises
    [ValueError]: [score(A, A)] returns no distance. *)
Lemma score_repeated_label_raises :
  columns twice_a <> [] /\
  exists msg,
    score exact twice_a twice_a false = Raise (ValueError msg) /\
    score exact twice_a twice_a true = Raise (ValueError msg).
Proof.
  split; [ discriminate | ]. eexists. split; reflexivity.
Qed.

(** C3 (amended): for a dataset with at least one column and pairwise
    distinct column labels, [score(A, A)] gives the distance [0] for every
    column and the average [0]. *)
Theorem score_identical (A : DataFrame) :
  NoDup (columns A) -> columns A <> [] ->
  score exact A A false = Return (Average (Fin 0%R)) /\
  exists column_distances,
    score exact A A true = Return (AverageAndColumns (Fin 0%R) column_distances) /\
    map fst column_distances = columns A /\
    forall c, In c (columns A) -> dict_get column_distances c = Some (Fin 0%R).
Proof.
  intros Hnd Hne.
  assert (Hzero : forall c, distance_of A A c = Fin 0%R).
  { intros c. apply column_distance_same. }
  rewrite !score_eval by auto using incl_refl. cbv zeta.
  rewrite (map_ext _ _ Hzero), arithmetic_mean_zeros.
  split; [ reflexivity | ].
  exists (distances_of A A). split; [ reflexivity | ]. split.
  - unfold distances_of. rewrite map_map. apply map_id.
  - intros c Hc. unfold distances_of. rewrite dict_get_map, Hzero.
    now rewrite (proj2 (label_in_true c _) Hc).
Qed.

Lemma score_identical_witness :
  score exact census_original census_original false = Return (Average (Fin 0%R)) /\
  exists column_distances,
    score exact census_original census_original true
    = Return (AverageAndColumns (Fin 0%R) column_distances) /\
    map fst column_distances = columns census_original /\
    forall c, In c (columns census_original) ->
              dict_get column_distances c = Some (Fin 0%R).
Proof.
  apply (score_identical census_original).
  - repeat constructor; in_list.
  - discriminate.
Defined.

(** The table is symmetric, and its values are those of the computation
    it stands for. *)
Lemma either_order_sym (p q u v : list nat) :
  either_order p q u v = either_order q p u v.
Proof.
  unfold either_order.
  rewrite orb_comm, (andb_comm (vector_eqb p v)), (andb_comm (vector_eqb p u)).
  reflexivity.
Qed.

Lemma jensenshannon_table_sym (p q : list nat) :
  jensenshannon_table p q = jensenshannon_table q p.
Proof. unfold jensenshannon_table. now rewrite !(either_order_sym p q). Qed.

Example jensenshannon_table_values :
  jensenshannon_table [4; 0]%nat [0; 4]%nat = differing_share_distance 4 4 /\
  jensenshannon_table [2; 2; 0]%nat [2; 0; 2]%nat = differing_share_distance 2 4 /\
  jensenshannon_table [3; 1; 0]%nat [3; 0; 1]%nat = differing_share_distance 1 4.
Proof. vm_compute. repeat split. Qed.

(** C4, counterexample: two datasets with the same three columns, listed
    in opposite orders.  Each column has the same distance either way, but
    the distances are added in the column order of the first argument, and
    binary64 addition rounds: the two averages differ in their last bit
    ([0.612512309331428] against [0.6125123093314279]). *)
Lemma score_column_order_changes_average :
  NoDup (columns survey_1) /\ NoDup (columns survey_2) /\
  same_set (columns survey_1) (columns survey_2) /\
  score (binary64 jensenshannon_table) survey_1 survey_2 true
  = Return (AverageAndColumns
              (S754_finite false 5517020416129722 (-53))
              [(LStr "q1", S754_finite false 7498985273150791 (-53));
               (LStr "q2", S754_finite false 5302583338662979 (-53));
               (LStr "q3", S754_finite false 7498985273150791 (-54))]) /\
  score (binary64 jensenshannon_table) survey_2 survey_1 true
  = Return (AverageAndColumns
              (S754_finite false 5517020416129721 (-53))
              [(LStr "q3", S754_finite false 7498985273150791 (-54));
               (LStr "q2", S754_finite false 5302583338662979 (-53));
               (LStr "q1", S754_finite false 7498985273150791 (-53))]).
Proof.
  split; [ repeat constructor; in_list | ].
  split; [ repeat constructor; in_list | ].
  split; [ intros x; simpl; tauto | ].
  split; vm_compute; reflexivity.
Qed.

(** C4 (amended): for two datasets with pairwise distinct column labels
    that form the same set, and a distance that is symmetric on vectors of
    one length (as [jensenshannon] is): each column has the same distance
    in [score(A, B)] and in [score(B, A)]; each of the two results is made
    of these distances taken in the column order of its first argument,
    the average being their sum from left to right over their number; and
    the two results are equal when the columns are in the same order. *)
Theorem score_symmetric (ar : arithmetic) (A B : DataFrame) :
  (forall p q, List.length p = List.length q -> distance ar p q = distance ar q p) ->
  NoDup (columns A) -> NoDup (columns B) ->
  same_set (columns A) (columns B) ->
  (forall c, distance_in ar A B c = distance_in ar B A c) /\
  (forall score_dict,
     score ar A B score_dict
     = score_of ar (columns A) (distance_in ar A B) score_dict) /\
  (forall score_dict,
     score ar B A score_dict
     = score_of ar (columns B) (distance_in ar A B) score_dict) /\
  (columns A = columns B ->
   forall score_dict, score ar A B score_dict = score ar B A score_dict).
Proof.
  intros Hsym HndA HndB Hsame.
  assert (Hd : forall c, distance_in ar B A c = distance_in ar A B c).
  { intros c. apply aligned_distance_sym, Hsym. }
  assert (HAB : incl (columns A) (columns B)) by (intros x; apply Hsame).
  assert (HBA : incl (columns B) (columns A)) by (intros x; apply Hsame).
  assert (H1 : forall score_dict,
            score ar A B score_dict
            = score_of ar (columns A) (distance_in ar A B) score_dict).
  { intros score_dict. now apply score_eval_in. }
  assert (H2 : forall score_dict,
            score ar B A score_dict
            = score_of ar (columns B) (distance_in ar A B) score_dict).
  { intros score_dict. rewrite score_eval_in by assumption.
    apply score_of_ext, Hd. }
  split; [ intros c; symmetry; apply Hd | ].
  split; [ exact H1 | ]. split; [ exact H2 | ].
  intros E score_dict. now rewrite H1, H2, E.
Qed.

Lemma score_symmetric_witness :
  (forall c, distance_in (binary64 jensenshannon_table) survey_1 survey_2 c
             = distance_in (binary64 jensenshannon_table) survey_2 survey_1 c) /\
  (forall score_dict,
     score (binary64 jensenshannon_table) survey_1 survey_2 score_dict
     = score_of (binary64 jensenshannon_table) (columns survey_1)
                (distance_in (binary64 jensenshannon_table) survey_1 survey_2)
                score_dict) /\
  (forall score_dict,
     score (binary64 jensenshannon_table) survey_2 survey_1 score_dict
     = score_of (binary64 jensenshannon_table) (columns survey_2)
                (distance_in (binary64 jensenshannon_table) survey_1 survey_2)
                score_dict) /\
  (columns survey_1 = columns survey_2 ->
   forall score_dict,
     score (binary64 jensenshannon_table) survey_1 survey_2 score_dict
     = score (binary64 jensenshannon_table) survey_2 survey_1 score_dict).
Proof.
  apply (score_symmetric (binary64 jensenshannon_table) survey_1 survey_2).
  - intros p q _. apply jensenshannon_table_sym.
  - repeat constructor; in_list.
  - repeat constructor; in_list.
  - intros x. simpl. tauto.
Defined.

Lemma same_set_nil_l {A : Type} (l : list A) : same_set [] l -> l = [].
Proof.
  destruct l as [ | a l]; [ reflexivity | ].
  intros H. destruct (proj2 (H a)). now left.
Qed.

(** In exact arithmetic the order of the columns does not matter either:
    rounding is all that tells [score(A, B)] from [score(B, A)]. *)
Lemma score_symmetric_exact (A B : DataFrame) (score_dict : bool) :
  NoDup (columns A) -> NoDup (columns B) ->
  same_set (columns A) (columns B) ->
  same_scores (score exact A B score_dict) (score exact B A score_dict).
Proof.
  intros HndA HndB Hsame.
  destruct (columns A) as [ | a colsA] eqn:EA.
  - pose proof (same_set_nil_l _ Hsame) as EB.
    rewrite !score_no_columns by assumption. reflexivity.
  - rewrite <- EA in *.
    assert (HneA : columns A <> []) by (rewrite EA; discriminate).
    assert (HneB : columns B <> []).
    { intros EB. rewrite EB in Hsame. destruct (proj1 (Hsame a)).
      rewrite EA. now left. }
    assert (HAB : incl (columns A) (columns B)) by (intros x; apply Hsame).
    assert (HBA : incl (columns B) (columns A)) by (intros x; apply Hsame).
    assert (Hperm : Permutation (columns A) (columns B)).
    { now apply NoDup_Permutation. }
    assert (Hsym : forall c, distance_of A B c = distance_of B A c).
    { intros c. apply column_distance_sym. }
    rewrite !score_eval by assumption. cbv zeta.
    assert (Hmean :
      arithmetic_mean (map (distance_of A B) (columns A))
      = arithmetic_mean (map (distance_of B A) (columns B))).
    { unfold arithmetic_mean.
      rewrite (map_ext _ _ Hsym), !length_map, (Permutation_length Hperm).
      now rewrite (npsum_perm _ _ (Permutation_map (distance_of B A) Hperm)). }
    rewrite Hmean.
    destruct score_dict; simpl; [ | reflexivity ].
    split; [ reflexivity | ].
    intros c. unfold distances_of. rewrite !dict_get_map, Hsym.
    destruct (label_in c (columns A)) eqn:E1, (label_in c (columns B)) eqn:E2;
      try reflexivity.
    + apply label_in_true, Hsame, label_in_true in E1. congruence.
    + apply label_in_true, Hsame, label_in_true in E2. congruence.
Qed.

(** C5, counterexample: the synthetic dataset has the column of the
    original one, twice: [synthetic[c]] is then a frame, whose
    [value_counts] raises [ValueError]; no mean is returned. *)
Lemma score_repeated_synthetic_label_raises :
  NoDup (columns once_a) /\ incl (columns once_a) (columns twice_a) /\
  exists msg,
    score exact once_a twice_a false = Raise (ValueError msg) /\
    score exact once_a twice_a true = Raise (ValueError msg).
Proof.
  split; [ repeat constructor; in_list | ].
  split; [ intros x; simpl; tauto | ].
  eexists. split; reflexivity.
Qed.

(** C5 (amended): for two datasets with pairwise distinct column labels,
    the columns of the original one being columns of the synthetic one,
    [score] is made of the distances of the columns of the original
    dataset, in their order: the distance of a column is [jensenshannon] of
    the two vectors that count, for each category the columns are aligned
    on, its occurrences in the column of each dataset ([0] when it has
    none); these categories are the values observed in the column of
    either dataset, each once, the missing value among them.  In whatever
    arithmetic, the average is the sum of the distances from left to right
    over their number; in exact arithmetic it is their arithmetic mean, and
    the order of the categories does not matter.  With [score_dict] the
    mapping from each column to its distance is returned too.  Without
    columns there is no mean: [ZeroDivisionError] is raised. *)
Theorem score_is_mean_of_column_distances (original synthetic : DataFrame)
    (score_dict : bool) :
  NoDup (columns original) -> NoDup (columns synthetic) ->
  incl (columns original) (columns synthetic) ->
  (forall ar,
     score ar original synthetic score_dict
     = score_of ar (columns original) (distance_in ar original synthetic)
                score_dict) /\
  (forall c,
     NoDup (aligned_categories (column original c) (column synthetic c)) /\
     forall k, In k (aligned_categories (column original c) (column synthetic c))
               <-> In k (column original c) \/ In k (column synthetic c)) /\
  (columns original <> [] ->
   score exact original synthetic score_dict
   = Return
       (let average :=
          arithmetic_mean (map (distance_of original synthetic) (columns original)) in
        if score_dict
        then AverageAndColumns average (distances_of original synthetic)
        else Average average)) /\
  (columns original = [] ->
   forall ar,
     score ar original synthetic score_dict
     = Raise (ZeroDivisionError "division by zero")).
Proof.
  intros Hnd Hnd' Hincl.
  split; [ intros ar; now apply score_eval_in | ].
  split; [ intros c; apply aligned_categories_spec | ].
  split; [ intros Hne; now apply score_eval | ].
  intros E ar. now apply score_no_columns.
Qed.

Lemma score_is_mean_of_column_distances_witness :
  score exact census_original census_synthetic false
  = Return (Average (arithmetic_mean
                       (map (distance_of census_original census_synthetic)
                            [LStr "age"; LStr "gender"]))).
Proof.
  apply (score_is_mean_of_column_distances census_original census_synthetic false).
  - repeat constructor; in_list.
  - repeat constructor; in_list.
  - intros x. simpl. tauto.
  - discriminate.
Defined.

(** The count vectors behind the distance of the [gender] column: the
    categories the columns are aligned on with their counts, the missing
    value among them. *)
Example census_gender_counts :
  aligned_categories (column census_original (LStr "gender"))
                     (column census_synthetic (LStr "gender"))
  = [Str "f"; Str "m"; NA] /\
  count_vector (column census_original (LStr "gender")) [Str "f"; Str "m"; NA]
  = [1; 1; 1]%nat /\
  count_vector (column census_synthetic (LStr "gender")) [Str "f"; Str "m"; NA]
  = [0; 2; 0]%nat.
Proof. repeat split. Qed.

(** * Further properties *)

Local Open Scope Z_scope.

(** ** Input normalisation: the returned frame *)

Lemma combine_relabel {A B C : Type} (f : A -> C) (l : list (A * B)) :
  combine (map f (map fst l)) (map snd l) = map (fun p => (f (fst p), snd p)) l.
Proof.
  induction l as [ | [a b] l IH]; simpl; [ reflexivity | ]. now rewrite IH.
Qed.

Lemma set_columns_normalised (df : DataFrame) :
  set_columns (astype_str df) (columns_astype_str (astype_str df)) = normalised df.
Proof.
  unfold normalised, set_columns, columns_astype_str, columns, astype_str.
  cbn [frame_len frame_cols]. f_equal.
  rewrite combine_relabel, map_map. reflexivity.
Qed.

(** The whole effect of [_check_input_data]. *)
Lemma check_input_data_eq (self : synthesizer) (data : tabular) :
  _check_input_data self data
  = (mkSynth (type_name self) (epsilon self) (verbose self)
             (Some (columns (normalised (pd_DataFrame data))))
             (Some (frame_len (pd_DataFrame data))) (model_ self),
     normalised (pd_DataFrame data)).
Proof.
  unfold _check_input_data. cbv zeta. rewrite set_columns_normalised. reflexivity.
Qed.

Lemma normalised_idempotent (df : DataFrame) :
  normalised (normalised df) = normalised df.
Proof.
  unfold normalised. cbn [frame_len frame_cols]. f_equal.
  rewrite map_map. apply map_ext. intros [l vs]. cbn [fst snd label_str].
  f_equal. rewrite map_map. apply map_ext. intros v. now destruct v.
Qed.

(** X2: [_check_input_data] is idempotent: fed the frame it returned, it
    returns the same frame and leaves the instance as it is. *)
Theorem check_input_data_idempotent (self : synthesizer) (data : tabular) :
  _check_input_data (fst (_check_input_data self data))
                    (TFrame (snd (_check_input_data self data)))
  = _check_input_data self data.
Proof.
  rewrite !check_input_data_eq. cbn [fst snd pd_DataFrame].
  rewrite normalised_idempotent. reflexivity.
Qed.

(** X3: the instance records exactly the columns and the number of rows of
    the frame [_check_input_data] returns; in that frame every label is a
    string, every value is a string or is missing, and each column is as
    long as it was. *)
Theorem check_input_data_returns_strings (self : synthesizer) (data : tabular) :
  columns_ (fst (_check_input_data self data))
  = Some (columns (snd (_check_input_data self data))) /\
  n_records_fit_ (fst (_check_input_data self data))
  = Some (shape0 (snd (_check_input_data self data))) /\
  (forall c vs, In (c, vs) (frame_cols (snd (_check_input_data self data))) ->
     is_str_label c = true /\
     forall v, In v vs -> is_str_cell v = true \/ isna v = true) /\
  map (fun cv => List.length (snd cv)) (frame_cols (snd (_check_input_data self data)))
  = map (fun cv => List.length (snd cv)) (frame_cols (pd_DataFrame data)).
Proof.
  rewrite check_input_data_eq. cbn [fst snd].
  split; [ reflexivity | ]. split; [ reflexivity | ]. split.
  - intros c vs Hin. unfold normalised in Hin. cbn [frame_cols] in Hin.
    apply in_map_iff in Hin. destruct Hin as ([l ws] & [= <- <-] & _).
    split; [ reflexivity | ].
    intros v Hv. apply in_map_iff in Hv. destruct Hv as (w & <- & _).
    destruct w; simpl; auto.
  - unfold normalised. cbn [frame_cols]. rewrite map_map. apply map_ext.
    intros [l ws]. cbn [snd]. apply length_map.
Qed.

Lemma check_input_data_returns_strings_witness :
  is_str_label (LStr "0") = true /\
  forall v, In v [Str "31"; NA] -> is_str_cell v = true \/ isna v = true.
Proof.
  apply (proj1 (proj2 (proj2 (check_input_data_returns_strings
                                (with_epsilon (PyInt 1))
                                (TArray 2 2 [[Int 31; Str "f"]; [NA; Str "m"]]))))).
  simpl. auto.
Defined.

(** ** Input normalisation: distinct columns *)

Lemma to_int_not_nil (z : Z) :
  Z.to_int z <> Decimal.Pos Decimal.Nil /\ Z.to_int z <> Decimal.Neg Decimal.Nil.
Proof.
  pose proof (DecimalZ.to_of (Z.to_int z)) as H.
  rewrite DecimalZ.of_to in H.
  split; intros E; rewrite E in H; discriminate H.
Qed.

(** Distinct integers have distinct decimal writings. *)
Lemma str_of_Z_inj (a b : Z) : str_of_Z a = str_of_Z b -> a = b.
Proof.
  unfold str_of_Z. intros E.
  destruct (to_int_not_nil a) as [Ha1 Ha2], (to_int_not_nil b) as [Hb1 Hb2].
  pose proof (NilZero.isi _ Ha1 Ha2) as Ia.
  pose proof (NilZero.isi _ Hb1 Hb2) as Ib.
  rewrite E, Ib in Ia. injection Ia as Ia.
  rewrite <- (DecimalZ.of_to a), <- (DecimalZ.of_to b). now f_equal.
Qed.

Lemma NoDup_map_inj_in {A B : Type} (f : A -> B) (l : list A) :
  (forall x y, In x l -> In y l -> f x = f y -> x = y) ->
  NoDup l -> NoDup (map f l).
Proof.
  induction l as [ | a l IH]; simpl; intros Hinj Hnd; [ constructor | ].
  inversion Hnd as [ | ? ? Hout Hnd']; subst. constructor.
  - intros Hin. apply in_map_iff in Hin. destruct Hin as (x & Hfx & Hx).
    assert (x = a) by (apply Hinj; auto). subst. contradiction.
  - apply IH; auto.
Qed.

(** Casting to strings can merge two labels: the integer [1] and the
    string ["1"]. *)
Example check_input_data_merges_labels :
  columns_ (fst (_check_input_data (with_epsilon (PyInt 1))
                   (TFrame (mkFrame 0 [(LInt 1, []); (LStr "1", [])]))))
  = Some [LStr "1"; LStr "1"].
Proof. reflexivity. Qed.

(** X4: when the column labels of the dataset are pairwise distinct and
    are all strings or all integers, the recorded [columns_] are pairwise
    distinct; this is the case of every array, whose [ncols] columns are
    labelled by their positions. *)
Theorem check_input_data_distinct_columns (self : synthesizer) (data : tabular) :
  NoDup (dataset_labels data) ->
  (forall l, In l (dataset_labels data) -> is_str_label l = true) \/
  (forall l, In l (dataset_labels data) -> is_str_label l = false) ->
  exists cols,
    columns_ (fst (_check_input_data self data)) = Some cols /\
    NoDup cols /\ List.length cols = List.length (dataset_labels data).
Proof.
  intros Hnd Hkind. rewrite check_input_data_eq. cbn [fst columns_].
  eexists. split; [ reflexivity | ].
  unfold normalised, columns. cbn [frame_cols]. rewrite map_map. cbn [fst].
  rewrite <- (map_map fst (fun l => LStr (label_str l))).
  fold (columns (pd_DataFrame data)). rewrite columns_pd_DataFrame.
  split; [ | apply length_map ].
  apply NoDup_map_inj_in; [ | exact Hnd ].
  intros x y Hx Hy [= E].
  destruct Hkind as [Hk | Hk]; pose proof (Hk x Hx) as Kx; pose proof (Hk y Hy) as Ky;
    destruct x, y; try discriminate; simpl in E.
  - congruence.
  - f_equal. now apply str_of_Z_inj.
Qed.

Lemma check_input_data_distinct_columns_witness :
  exists cols,
    columns_ (fst (_check_input_data (with_epsilon (PyInt 1))
                     (TArray 2 3 [[Int 1; NA; Str "a"]; [Int 2; NA; Str "b"]])))
    = Some cols /\
    NoDup cols /\ List.length cols = 3%nat.
Proof.
  apply (check_input_data_distinct_columns (with_epsilon (PyInt 1))
           (TArray 2 3 [[Int 1; NA; Str "a"]; [Int 2; NA; Str "b"]])).
  - repeat constructor; in_list.
  - right. intros l. simpl. intuition (subst; reflexivity).
Defined.

(** ** From construction to the fixed-data check *)

Lemma columns_normalised (df : DataFrame) :
  columns (normalised df) = map (fun l => LStr (label_str l)) (columns df).
Proof.
  unfold normalised, columns. cbn [frame_cols]. rewrite !map_map. reflexivity.
Qed.

(** X5: [__init__] validates nothing and fits nothing: whatever its
    arguments, the new instance fails the fitted-state check with
    [NotFittedError] and the fixed-data check of a [Series] or a
    [DataFrame] with [AttributeError].  After [_check_input_data] the
    instance is still not fitted and its epsilon validates as before, but a
    [Series] named by a string-cast column label of the dataset now passes
    the fixed-data check. *)
Theorem fresh_instance_lifecycle (cls : string) (eps : option pyobj)
    (verb : option bool) (data : tabular) :
  _check_is_fitted (__init__ cls eps verb)
  = Raise (NotFittedError (not_fitted_msg cls)) /\
  (forall s, exists msg,
     _check_fixed_data (__init__ cls eps verb) (FSeries s)
     = Raise (AttributeError msg)) /\
  (forall df, exists msg,
     _check_fixed_data (__init__ cls eps verb) (FFrame df)
     = Raise (AttributeError msg)) /\
  _check_is_fitted (fst (_check_input_data (__init__ cls eps verb) data))
  = Raise (NotFittedError (not_fitted_msg cls)) /\
  _check_epsilon (fst (_check_input_data (__init__ cls eps verb) data))
  = _check_epsilon (__init__ cls eps verb) /\
  (forall s l, name s = Some (LStr (label_str l)) -> In l (dataset_labels data) ->
     _check_fixed_data (fst (_check_input_data (__init__ cls eps verb) data))
                       (FSeries s)
     = Return []).
Proof.
  rewrite check_input_data_eq. cbn [fst].
  split; [ reflexivity | ]. split; [ intros s; eexists; reflexivity | ].
  split; [ intros df; eexists; reflexivity | ].
  split; [ reflexivity | ]. split; [ reflexivity | ].
  intros s l Hname Hl. unfold _check_fixed_data. cbn [columns_ getattr bind].
  rewrite Hname. cbn [name_in].
  rewrite (proj2 (label_in_true _ _)); [ reflexivity | ].
  rewrite columns_normalised, columns_pd_DataFrame.
  exact (in_map (fun l => LStr (label_str l)) _ _ Hl).
Qed.

Lemma fresh_instance_lifecycle_witness :
  _check_fixed_data
    (fst (_check_input_data
            (__init__ "PrivBayes" None None)
            (TArray 1 2 [[Int 31; Str "f"]])))
    (FSeries (mkSeries (Some (LStr "1")) [Str "f"]))
  = Return [].
Proof.
  apply (fresh_instance_lifecycle "PrivBayes" None None
           (TArray 1 2 [[Int 31; Str "f"]]))
    with (l := LInt 1).
  - reflexivity.
  - simpl. auto.
Defined.

(** ** Fixed-data validation: what is read, and when *)




(** X7: for a [DataFrame] whose columns form a strict subset of
    [columns_], the model is read only when there is a column to compare: a
    frame without columns passes, model or no model, and a frame with a
    column on an instance without [model_] raises [AttributeError]. *)
Theorem check_fixed_data_model_access (self : synthesizer) (cols : list label)
    (df : DataFrame) :
  columns_ self = Some cols ->
  incl (columns df) cols -> ~ same_set (columns df) cols ->
  (columns df = [] -> exists out, _check_fixed_data self (FFrame df) = Return out) /\
  (columns df <> [] -> model_ self = None ->
   _check_fixed_data self (FFrame df)
   = Raise (AttributeError
              ("'" ++ type_name self ++ "' object has no attribute 'model_'"))).
Proof.
  intros Hcols Hincl Hstrict.
  rewrite (strict_subset_passes_value_checks self cols df Hcols Hincl Hstrict).
  split.
  - intros ->. simpl. destruct (verbose self); eauto.
  - intros Hne Hmodel. destruct (columns df) as [ | c cs]; [ now elim Hne | ].
    cbn [check_categories]. rewrite Hmodel. reflexivity.
Qed.

Lemma check_fixed_data_model_access_witness :
  (exists out,
     _check_fixed_data (mkSynth "PrivBayes" (PyInt 1) true (Some [LStr "age"])
                                (Some 3%nat) None)
                       (FFrame (mkFrame 0 []))
     = Return out) /\
  _check_fixed_data (mkSynth "PrivBayes" (PyInt 1) true
                             (Some [LStr "age"; LStr "gender"]) (Some 3%nat) None)
                    (FFrame (mkFrame 1 [(LStr "age", [Str "31"])]))
  = Raise (AttributeError "'PrivBayes' object has no attribute 'model_'").
Proof.
  split.
  - apply (check_fixed_data_model_access
             (mkSynth "PrivBayes" (PyInt 1) true (Some [LStr "age"]) (Some 3%nat) None)
             [LStr "age"] (mkFrame 0 []) eq_refl).
    + intros x [].
    + intros H. destruct (proj2 (H (LStr "age"))). now left.
    + reflexivity.
  - apply (check_fixed_data_model_access
             (mkSynth "PrivBayes" (PyInt 1) true (Some [LStr "age"; LStr "gender"])
                      (Some 3%nat) None)
             [LStr "age"; LStr "gender"] (mkFrame 1 [(LStr "age", [Str "31"])])
             eq_refl).
    + intros x. in_list.
    + intros H. destruct (proj2 (H (LStr "gender"))) as [E | []]; [ in_list | ].
      discriminate E.
    + discriminate.
    + reflexivity.
Defined.

(** On an instance fitted on no column, a frame without columns already
    holds them all. *)
Example check_fixed_data_no_columns_at_all :
  _check_fixed_data (fitted_on [] (mkModel [])) (FFrame (mkFrame 0 []))
  = Raise (ValueError
             "Fixed data already contains all the columns that were seen in fit.").
Proof. reflexivity. Qed.

(** A level is looked up by name before an integer is read as a
    position. *)
Example get_level_values_by_position :
  get_level_values (mkModel [(LStr "a", [Str "x"]); (LStr "b", [Str "y"])]) (LInt 0)
  = Return [Str "x"] /\
  get_level_values (mkModel [(LStr "a", [Str "x"]); (LStr "b", [Str "y"])]) (LInt (-1))
  = Return [Str "y"] /\
  get_level_values (mkModel [(LInt 1, [Str "x"]); (LInt 0, [Str "y"])]) (LInt 0)
  = Return [Str "y"] /\
  get_level_values (mkModel [(LStr "a", [Str "x"]); (LStr "b", [Str "y"])]) (LInt 2)
  = Raise (IndexError "Too many levels: Index has only 2 levels, not 3") /\
  get_level_values (mkModel [(LStr "a", [Str "x"]); (LStr "a", [Str "y"])]) (LStr "a")
  = Raise (ValueError "The name a occurs multiple times, use a level number").
Proof. repeat split. Qed.

Lemma names_index_absent (c : label) (names : list label) :
  ~ In c names -> names_index c names = None.
Proof.
  induction names as [ | n names IH]; simpl; intros Hout; [ reflexivity | ].
  destruct (label_eq_dec c n) as [-> | Hne]; [ elim Hout; now left | ].
  rewrite IH; [ reflexivity | ]. intros Hin. apply Hout. now right.
Qed.

Lemma get_level_values_absent (m : fitted_model) (s : string) :
  ~ In (LStr s) (map fst (index m)) ->
  get_level_values m (LStr s) = Raise (KeyError ("Level " ++ s ++ " not found")).
Proof.
  intros Hout. unfold get_level_values, _get_level_number.
  rewrite (proj1 (count_occ_not_In label_eq_dec _ _) Hout).
  now rewrite (names_index_absent _ _ Hout).
Qed.

(** X8: when a fixed column labelled by a string names no level of the
    index of the model, and the fixed columns before it match, the check
    raises the [KeyError] of [get_level_values], not an assertion
    failure. *)
Theorem check_fixed_data_missing_level (self : synthesizer) (cols : list label)
    (m : fitted_model) (df : DataFrame) (pre post : list label) (s : string) :
  columns_ self = Some cols -> model_ self = Some m ->
  incl (columns df) cols -> ~ same_set (columns df) cols ->
  columns df = (pre ++ LStr s :: post)%list ->
  (forall c', In c' pre -> categories_match m df c') ->
  ~ In (LStr s) (map fst (index m)) ->
  exists msg, _check_fixed_data self (FFrame df) = Raise (KeyError msg).
Proof.
  intros Hcols Hmodel Hincl Hstrict Hsplit Hpre Hnone.
  exists ("Level " ++ s ++ " not found").
  assert (Hcat : check_categories self df (pre ++ LStr s :: post)
                 = Raise (KeyError ("Level " ++ s ++ " not found"))).
  { clear Hsplit. induction pre as [ | c' pre IH].
    - cbn [app check_categories]. rewrite Hmodel. cbn [getattr bind].
      now rewrite (get_level_values_absent m s Hnone).
    - change ((c' :: pre) ++ LStr s :: post)%list
        with (c' :: (pre ++ LStr s :: post))%list.
      rewrite (check_categories_step_match self m df Hmodel)
        by (apply Hpre; now left).
      apply IH. intros x Hx. apply Hpre. now right. }
  rewrite (strict_subset_passes_value_checks self cols df Hcols Hincl Hstrict).
  rewrite Hsplit at 1. rewrite Hcat. reflexivity.
Qed.

Lemma check_fixed_data_missing_level_witness :
  exists msg,
    _check_fixed_data
      (fitted_on [LStr "age"; LStr "gender"; LStr "city"]
                 (mkModel [(LStr "gender", [Str "f"; Str "m"])]))
      (FFrame fixed_ok)
    = Raise (KeyError msg).
Proof.
  apply (check_fixed_data_missing_level
           (fitted_on [LStr "age"; LStr "gender"; LStr "city"]
                      (mkModel [(LStr "gender", [Str "f"; Str "m"])]))
           [LStr "age"; LStr "gender"; LStr "city"]
           (mkModel [(LStr "gender", [Str "f"; Str "m"])])
           fixed_ok [LStr "gender"] [] "age" eq_refl eq_refl).
  - intros x. in_list.
  - intros H. destruct (proj2 (H (LStr "city"))) as [E | [E | []]];
      [ in_list | discriminate E | discriminate E ].
  - reflexivity.
  - intros c' [<- | []].
    exists [Str "f"; Str "m"],
           (OneColumn (mkSeries (Some (LStr "gender")) [Str "m"; Str "f"; Str "f"])).
    repeat (split; [ reflexivity | ]). intros x. in_list.
  - in_list.
Defined.

(** X9: when the check of a [DataFrame] passes on a verbose instance, what
    it prints is the list of the fitted columns that the fixed data lacks:
    never empty, and together with the fixed columns it makes up
    [columns_]; on an instance that is not verbose nothing is printed. *)
Theorem check_fixed_data_prints_remaining (self : synthesizer) (df : DataFrame)
    (out : list stdout_line) :
  _check_fixed_data self (FFrame df) = Return out ->
  (verbose self = false -> out = []) /\
  (verbose self = true ->
   exists cols sample_columns,
     columns_ self = Some cols /\
     out = [ColumnsSampled sample_columns] /\
     sample_columns <> [] /\
     (forall c, In c sample_columns <-> In c cols /\ ~ In c (columns df)) /\
     (forall c, In c cols <-> In c sample_columns \/ In c (columns df))).
Proof.
  unfold _check_fixed_data.
  destruct (columns_ self) as [cols | ]; [ | discriminate ].
  cbn [getattr bind].
  destruct (forallb (fun c => label_in c cols) (columns df)) eqn:Hall;
    [ | discriminate ].
  destruct (set_eqb label_eq_dec (columns df) cols) eqn:Heq; [ discriminate | ].
  cbn [negb].
  destruct (check_categories self df (columns df)) as [[] | e]; [ | discriminate ].
  cbn [bind]. rewrite forallb_forall in Hall. apply set_eqb_false in Heq.
  assert (Hsample : forall c,
            In c (filter (fun c => negb (label_in c (columns df))) cols)
            <-> In c cols /\ ~ In c (columns df)).
  { intros c. rewrite filter_In, negb_true_iff. split; intros [Hc Hn]; split; auto.
    - intros Hin. apply label_in_true in Hin. congruence.
    - destruct (label_in c (columns df)) eqn:E; [ | reflexivity ].
      apply label_in_true in E. contradiction. }
  destruct (verbose self); intros [= <-]; split; try discriminate; try reflexivity.
  intros _. exists cols, (filter (fun c => negb (label_in c (columns df))) cols).
  split; [ reflexivity | ]. split; [ reflexivity | ]. split; [ | split ].
  - intros Hnil. apply Heq. intros c. split.
    + intros Hc. now apply label_in_true, Hall.
    + intros Hc. destruct (in_dec label_eq_dec c (columns df)) as [ | Hout]; auto.
      assert (Hin : In c (filter (fun c => negb (label_in c (columns df))) cols))
        by (apply Hsample; auto).
      rewrite Hnil in Hin. destruct Hin.
  - exact Hsample.
  - intros c. rewrite Hsample. split.
    + intros Hc. destruct (in_dec label_eq_dec c (columns df)); auto.
    + intros [[Hc _] | Hc]; [ exact Hc | now apply label_in_true, Hall ].
Qed.

Lemma check_fixed_data_prints_remaining_witness :
  exists cols sample_columns,
    columns_ (set_verbose census_synth true) = Some cols /\
    [ColumnsSampled [LStr "city"]] = [ColumnsSampled sample_columns] /\
    sample_columns <> [] /\
    (forall c, In c sample_columns <-> In c cols /\ ~ In c (columns fixed_ok)) /\
    (forall c, In c cols <-> In c sample_columns \/ In c (columns fixed_ok)).
Proof.
  apply (check_fixed_data_prints_remaining (set_verbose census_synth true) fixed_ok
           [ColumnsSampled [LStr "city"]]); reflexivity.
Defined.

(** ** Fixed-data validation: what does not matter *)

Lemma check_categories_set_verbose (self : synthesizer) (v : bool)
    (df : DataFrame) (cs : list label) :
  check_categories (set_verbose self v) df cs = check_categories self df cs.
Proof.
  induction cs as [ | c cs IH]; [ reflexivity | ].
  cbn [check_categories set_verbose model_ type_name].
  destruct (model_ self) as [m | ]; [ | reflexivity ].
  cbn [getattr bind].
  destruct (get_level_values m c) as [level | ]; [ | reflexivity ].
  cbn [bind]. destruct (np_unique level) as [categories | ]; [ | reflexivity ].
  cbn [bind]. destruct (getitem df c) as [col | ]; [ | reflexivity ].
  cbn [bind].
  destruct (np_unique (selection_values col)) as [observed | ]; [ | reflexivity ].
  cbn [bind]. now rewrite <- IH.
Qed.

(** X10: [verbose] only decides whether the check prints: with either
    setting the check of the same input raises the same exceptions, and
    returns in the same cases. *)
Theorem check_fixed_data_verbose_irrelevant (self : synthesizer) (v : bool)
    (fixed_data : fixed_input) :
  (forall e, _check_fixed_data (set_verbose self v) fixed_data = Raise e <->
             _check_fixed_data self fixed_data = Raise e) /\
  ((exists out, _check_fixed_data (set_verbose self v) fixed_data = Return out) <->
   (exists out, _check_fixed_data self fixed_data = Return out)).
Proof.
  destruct fixed_data as [s | df | n k rows | o];
    try (split; [ intros e | ]; reflexivity).
  unfold _check_fixed_data.
  cbn [set_verbose columns_ type_name verbose].
  destruct (columns_ self) as [cols | ]; [ | split; [ intros e | ]; reflexivity ].
  cbn [getattr bind].
  destruct (negb (forallb (fun c => label_in c cols) (columns df)));
    [ split; [ intros e | ]; reflexivity | ].
  destruct (set_eqb label_eq_dec (columns df) cols);
    [ split; [ intros e | ]; reflexivity | ].
  rewrite (check_categories_set_verbose self v df (columns df)).
  destruct (check_categories self df (columns df)) as [[] | e'];
    [ | split; [ intros e | ]; reflexivity ].
  cbn [bind]. destruct v, (verbose self); split;
    try (intros e; split; discriminate); split; eauto.
Qed.

Lemma check_fixed_data_verbose_irrelevant_witness :
  exists out, _check_fixed_data census_synth (FFrame fixed_ok) = Return out.
Proof.
  apply (proj2 (check_fixed_data_verbose_irrelevant census_synth true (FFrame fixed_ok))).
  eexists. reflexivity.
Defined.

Section Columnwise.

Variable R : list cell -> list cell -> Prop.

Lemma columnwise_columns (df df' : DataFrame) :
  columnwise R df df' -> columns df = columns df'.
Proof.
  unfold columnwise, columns.
  induction 1 as [ | [l vs] [l' vs'] cols cols' [Hl _] _ IH]; simpl;
    [ reflexivity | ].
  simpl in Hl. now rewrite Hl, IH.
Qed.

Lemma columnwise_filter (c : label) (cols cols' : list (label * list cell)) :
  Forall2 (fun x x' => fst x = fst x' /\ R (snd x) (snd x')) cols cols' ->
  Forall2 (fun x x' => fst x = fst x' /\ R (snd x) (snd x'))
          (filter (has_label c) cols) (filter (has_label c) cols').
Proof.
  induction 1 as [ | [l vs] [l' vs'] cols cols' [Hl Hvs] _ IH]; simpl;
    [ constructor | ].
  simpl in Hl. subst l'.
  change (has_label c (l, vs)) with (has_label c (l, vs')).
  destruct (has_label c (l, vs')); [ | exact IH ].
  constructor; [ split; [ reflexivity | exact Hvs ] | exact IH ].
Qed.

End Columnwise.

Lemma same_set_concat (cols cols' : list (label * list cell)) :
  Forall2 (fun x x' => fst x = fst x' /\ same_set (snd x) (snd x')) cols cols' ->
  same_set (List.concat (map snd cols)) (List.concat (map snd cols')).
Proof.
  induction 1 as [ | x x' cols cols' [_ Hvs] _ IH]; simpl; [ intros v; tauto | ].
  intros v. rewrite !in_app_iff, (Hvs v), (IH v). tauto.
Qed.

(** What [df[c]] selects in two frames that hold the same sets of values
    column by column. *)
Lemma columnwise_getitem (df df' : DataFrame) (c : label) :
  columnwise same_set df df' ->
  match getitem df c, getitem df' c with
  | Return col, Return col' => same_set (selection_values col) (selection_values col')
  | Raise e, Raise e' => e = e'
  | _, _ => False
  end.
Proof.
  intros Hcw. unfold getitem.
  pose proof (columnwise_filter same_set c _ _ Hcw) as Hf.
  destruct Hf as [ | [l vs] [l' vs'] cols cols' [Hl Hvs] Hrest]; [ reflexivity | ].
  destruct Hrest as [ | y y' cols cols' Hy Hrest]; [ exact Hvs | ].
  cbn [selection_values frame_cols].
  apply same_set_concat. constructor; [ split; [ exact Hl | exact Hvs ] | ].
  now constructor.
Qed.

Lemma set_eqb_same_set_r {A : Type} (eq_dec : forall a b : A, {a = b} + {a <> b})
    (xs ys ys' : list A) :
  same_set ys ys' -> set_eqb eq_dec xs ys = set_eqb eq_dec xs ys'.
Proof.
  intros Hsame.
  destruct (set_eqb eq_dec xs ys) eqn:E, (set_eqb eq_dec xs ys') eqn:E';
    try reflexivity.
  - apply set_eqb_true in E. apply set_eqb_false in E'. elim E'.
    intros x. rewrite (E x). apply Hsame.
  - apply set_eqb_false in E. apply set_eqb_true in E'. elim E.
    intros x. rewrite (E' x). symmetry. apply Hsame.
Qed.

Lemma np_unique_same_set (categories ys ys' : list cell) :
  same_set ys ys' ->
  (observed <- np_unique ys ;; Return (py_set_eqb categories observed))
  = (observed <- np_unique ys' ;; Return (py_set_eqb categories observed)).
Proof.
  intros Hsame. unfold np_unique.
  rewrite (existsb_same_set is_str_cell ys ys' Hsame).
  rewrite (existsb_same_set (fun v => negb (is_str_cell v)) ys ys' Hsame).
  destruct (existsb is_str_cell ys' && existsb (fun v => negb (is_str_cell v)) ys');
    [ reflexivity | ].
  cbn [bind]. unfold py_set_eqb. f_equal. f_equal; [ f_equal; f_equal | ].
  - apply existsb_same_set. now apply same_set_nodup.
  - apply set_eqb_same_set_r. now apply same_set_nodup.
Qed.

Lemma check_categories_same_values (self : synthesizer) (df df' : DataFrame)
    (cs : list label) :
  columnwise same_set df df' ->
  check_categories self df cs = check_categories self df' cs.
Proof.
  intros Hcw. induction cs as [ | c cs IH]; [ reflexivity | ].
  cbn [check_categories].
  destruct (getattr self "model_" (model_ self)) as [m | ]; [ | reflexivity ].
  cbn [bind].
  destruct (get_level_values m c) as [level | ]; [ | reflexivity ].
  cbn [bind]. destruct (np_unique level) as [categories | ]; [ | reflexivity ].
  cbn [bind].
  pose proof (columnwise_getitem df df' c Hcw) as Hc.
  destruct (getitem df c) as [col | e], (getitem df' c) as [col' | e'];
    try contradiction; [ | now subst ].
  cbn [bind].
  pose proof (np_unique_same_set categories _ _ Hc) as Hu.
  destruct (np_unique (selection_values col)) as [observed | e],
           (np_unique (selection_values col')) as [observed' | e'];
    cbn [bind] in Hu |- *; try discriminate Hu.
  - injection Hu as ->. now rewrite IH.
  - injection Hu as ->. reflexivity.
Qed.

(** X11: the check of a [DataFrame] of strings depends on its values only
    through the set of distinct values of each column: two frames of
    strings with the same column labels whose columns hold the same sets
    of values are checked alike, whatever the order, the repetitions and
    the number of their rows. *)
Theorem check_fixed_data_distinct_values_only (self : synthesizer)
    (df df' : DataFrame) :
  all_strings df -> all_strings df' ->
  columnwise same_set df df' ->
  _check_fixed_data self (FFrame df) = _check_fixed_data self (FFrame df').
Proof.
  intros _ _ Hcw. unfold _check_fixed_data.
  rewrite (columnwise_columns same_set df df' Hcw).
  now rewrite (check_categories_same_values self df df' _ Hcw).
Qed.

Lemma check_fixed_data_distinct_values_only_witness :
  _check_fixed_data census_synth (FFrame fixed_ok)
  = _check_fixed_data census_synth
      (FFrame (mkFrame 2 [(LStr "gender", [Str "f"; Str "m"]);
                          (LStr "age", [Str "31"; Str "40"])])).
Proof.
  apply (check_fixed_data_distinct_values_only census_synth fixed_ok
           (mkFrame 2 [(LStr "gender", [Str "f"; Str "m"]);
                       (LStr "age", [Str "31"; Str "40"])])).
  - intros c vs v. unfold fixed_ok. cbn [frame_cols].
    intros [[= <- <-] | [[= <- <-] | []]]; in_list; subst; reflexivity.
  - intros c vs v. cbn [frame_cols].
    intros [[= <- <-] | [[= <- <-] | []]]; in_list; subst; reflexivity.
  - unfold columnwise, fixed_ok. cbn [frame_cols].
    constructor; [ split; [ reflexivity | intros x; in_list ] | ].
    constructor; [ split; [ reflexivity | intros x; in_list ] | ].
    constructor.
Defined.

(** ** [score]: what it reads *)

Local Open Scope nat_scope.

Lemma score_loop_missing (ar : arithmetic) (original synthetic : DataFrame)
    (pre post : list label) (c : label) (d : dict (num ar)) :
  NoDup (columns original) -> NoDup (columns synthetic) ->
  incl (pre ++ c :: post) (columns original) ->
  incl pre (columns synthetic) -> ~ In c (columns synthetic) ->
  score_loop ar original synthetic (pre ++ c :: post) d
  = Raise (KeyError (label_str c)).
Proof.
  intros Hnd Hnd'. revert d. induction pre as [ | c' pre IH]; intros d Ho Hs Hc.
  - cbn [app score_loop].
    rewrite (getitem_one original c Hnd) by (apply Ho; now left).
    cbn [bind value_counts_of]. now rewrite (getitem_missing synthetic c Hc).
  - change ((c' :: pre) ++ c :: post)%list with (c' :: (pre ++ c :: post))%list.
    rewrite (score_loop_step ar original synthetic Hnd Hnd')
      by (apply Ho || apply Hs; now left).
    apply IH; [ | | exact Hc ].
    + intros x Hx. apply Ho. now right.
    + intros x Hx. apply Hs. now right.
Qed.

(** X12: for two datasets with pairwise distinct column labels, when the
    synthetic one lacks a column of the original one, [score] raises the
    [KeyError] of the first such column, with or without [score_dict],
    whatever the other columns hold and the arithmetic is. *)
Theorem score_missing_column_raises (ar : arithmetic)
    (original synthetic : DataFrame) (pre post : list label) (c : label)
    (score_dict : bool) :
  NoDup (columns original) -> NoDup (columns synthetic) ->
  columns original = (pre ++ c :: post)%list ->
  incl pre (columns synthetic) -> ~ In c (columns synthetic) ->
  score ar original synthetic score_dict = Raise (KeyError (label_str c)).
Proof.
  intros Hnd Hnd' Hsplit Hs Hc. unfold score. rewrite Hsplit at 1.
  rewrite score_loop_missing; [ reflexivity | assumption | assumption | | exact Hs
                              | exact Hc ].
  rewrite <- Hsplit. apply incl_refl.
Qed.

Lemma score_missing_column_raises_witness :
  score exact census_original (mkFrame 1 [(LStr "age", [Str "31"])]) true
  = Raise (KeyError "gender").
Proof.
  apply (score_missing_column_raises exact census_original
           (mkFrame 1 [(LStr "age", [Str "31"])]) [LStr "age"] [] (LStr "gender")).
  - repeat constructor; in_list.
  - repeat constructor; in_list.
  - reflexivity.
  - intros x. in_list.
  - in_list.
Defined.

Lemma filter_has_label_restrict (c : label) (cs : list label)
    (l : list (label * list cell)) :
  In c cs ->
  filter (has_label c) (filter (fun cv => label_in (fst cv) cs) l)
  = filter (has_label c) l.
Proof.
  intros Hc. induction l as [ | [k v] l IH]; simpl; [ reflexivity | ].
  destruct (label_in k cs) eqn:E; simpl.
  - destruct (has_label c (k, v)); now rewrite IH.
  - destruct (has_label c (k, v)) eqn:H; [ | exact IH ].
    unfold has_label in H. simpl in H.
    destruct (label_eq_dec k c) as [-> | _]; [ | discriminate H ].
    apply label_in_true in Hc. congruence.
Qed.

Lemma getitem_restrict (df : DataFrame) (cs : list label) (c : label) :
  In c cs -> getitem (restrict df cs) c = getitem df c.
Proof.
  intros Hc. unfold getitem, restrict. cbn [frame_cols frame_len].
  now rewrite filter_has_label_restrict.
Qed.

Lemma score_loop_restrict (ar : arithmetic) (original synthetic : DataFrame)
    (cs cols : list label) (d : dict (num ar)) :
  incl cols cs ->
  score_loop ar original (restrict synthetic cs) cols d
  = score_loop ar original synthetic cols d.
Proof.
  revert d. induction cols as [ | c cols IH]; intros d Hincl; [ reflexivity | ].
  cbn [score_loop]. rewrite getitem_restrict by (apply Hincl; now left).
  destruct (getitem original c) as [orig | ]; [ | reflexivity ]. cbn [bind].
  destruct (value_counts_of false orig); [ | reflexivity ]. cbn [bind].
  destruct (getitem synthetic c) as [synth | ]; [ | reflexivity ]. cbn [bind].
  destruct (value_counts_of false synth); [ | reflexivity ]. cbn [bind].
  apply IH. intros x Hx. apply Hincl. now right.
Qed.

(** X13: [score] reads the synthetic dataset only in the columns that bear
    a label of the original one: two synthetic datasets that are the same
    once restricted to those columns get the same score, whatever other
    columns they have and the arithmetic is. *)
Theorem score_reads_original_columns (ar : arithmetic)
    (original synthetic synthetic' : DataFrame) (score_dict : bool) :
  restrict synthetic (columns original) = restrict synthetic' (columns original) ->
  score ar original synthetic score_dict = score ar original synthetic' score_dict.
Proof.
  intros Hsame. unfold score.
  rewrite <- (score_loop_restrict ar original synthetic (columns original))
    by apply incl_refl.
  rewrite <- (score_loop_restrict ar original synthetic' (columns original))
    by apply incl_refl.
  now rewrite Hsame.
Qed.

Lemma score_reads_original_columns_witness :
  score exact census_original census_synthetic true
  = score exact census_original
      (mkFrame 2 [(LStr "city", [Str "x"; Str "y"]);
                  (LStr "gender", [Str "m"; Str "m"]);
                  (LStr "age", [Str "31"; Str "55"])])
      true.
Proof.
  apply (score_reads_original_columns exact census_original census_synthetic).
  reflexivity.
Defined.

(** ** [score]: the range of the distances *)

Local Open Scope R_scope.





Section RealSums.

Variable I : Type.








End RealSums.














Local Close Scope R_scope.
